(** * Transport emissions scenario engine (src/app.py)

    A shallow embedding of the numeric core of [app.py]: the derived
    constants, the project effect table and the ordered pipeline of stages
    that [update_graph] runs on a copy of the master table.

    Numbers.  The program computes with binary floating point; the
    embedding computes with exact rationals ([Q]), and [==] is numerical
    equality of rationals.  Statements are therefore about the exact
    arithmetic that the program approximates.  Division is [Qdiv]; numpy
    yields inf or nan on a zero divisor, so every statement whose truth
    depends on the value of a quotient carries the hypothesis that its
    divisor is not zero.

    Tables.  A pandas DataFrame with row labels and mode columns is a
    function from row label and mode to a cell; the columns are the eight
    modes of [all_modes], the row labels the nine rows [data_load] leaves
    in [base_numbers].  The program tests membership of a mode in literal
    lists of strings, so each mode keeps its string name and the tests are
    made on names.  Every column holds floats, so the row that [df.loc[r]]
    returns is a view of the table and the chained form
    [df.loc[r][m] = v] writes the cell of the table, as [df.loc[r, m] = v]
    does. *)

From Stdlib Require Import QArith Qfield String List Bool Arith Lia Lqa.
Import ListNotations.

Local Open Scope string_scope.
Local Open Scope Q_scope.

(** ** Modes and row labels *)

Inductive Mode : Set :=
| passenger_light | electric_light | walking | cycling
| diesel_bus | electric_bus | heavy_rail | light_rail.

Definition mode_name (m : Mode) : string :=
  match m with
  | passenger_light => "passenger_light"
  | electric_light => "electric_light"
  | walking => "walking"
  | cycling => "cycling"
  | diesel_bus => "diesel_bus"
  | electric_bus => "electric_bus"
  | heavy_rail => "heavy_rail"
  | light_rail => "light_rail"
  end.

Definition Mode_eqb (a b : Mode) : bool := String.eqb (mode_name a) (mode_name b).

(** [mode in [...]] on a literal list of names. *)
Definition mode_in (m : Mode) (names : list string) : bool :=
  existsb (String.eqb (mode_name m)) names.

(** [mode != 'name']. *)
Definition mode_neq (m : Mode) (name : string) : bool :=
  negb (String.eqb (mode_name m) name).

Definition private_modes : list Mode :=
  [passenger_light; electric_light; walking; cycling].
Definition pt_modes : list Mode :=
  [diesel_bus; electric_bus; heavy_rail; light_rail].
Definition all_modes : list Mode :=
  [passenger_light; electric_light; walking; cycling;
   diesel_bus; electric_bus; heavy_rail; light_rail].

Inductive Row : Set :=
| pkt_2018 | vkt_2018
| pkt_2030_baseline | vkt_2030_baseline
| pkt_2030_scenario | vkt_2030_scenario
| emissions_2018 | emissions_2030_baseline | emissions_2030_scenario.

Definition Row_eqb (a b : Row) : bool :=
  match a, b with
  | pkt_2018, pkt_2018 | vkt_2018, vkt_2018
  | pkt_2030_baseline, pkt_2030_baseline | vkt_2030_baseline, vkt_2030_baseline
  | pkt_2030_scenario, pkt_2030_scenario | vkt_2030_scenario, vkt_2030_scenario
  | emissions_2018, emissions_2018
  | emissions_2030_baseline, emissions_2030_baseline
  | emissions_2030_scenario, emissions_2030_scenario => true
  | _, _ => false
  end.

(** Rows of [emission_factors.csv]. *)
Inductive FactorRow : Set := values_2018 | values_2030_baseline | values_2030_scenario.

(** ** Tables *)

Definition Series : Type := Mode -> Q.
Definition DataFrame : Type := Row -> Series.
Definition Factors : Type := FactorRow -> Series.

(** [df.loc[r][m]] and [df.loc[r, m]] read. *)
Definition loc (df : DataFrame) (r : Row) (m : Mode) : Q := df r m.

(** [df.loc[r, m] = v]. *)
Definition set_loc (df : DataFrame) (r : Row) (m : Mode) (v : Q) : DataFrame :=
  fun r' m' => if Row_eqb r r' && Mode_eqb m m' then v else df r' m'.

(** [df.loc[r][m] += v]. *)
Definition add_loc (df : DataFrame) (r : Row) (m : Mode) (v : Q) : DataFrame :=
  set_loc df r m (loc df r m + v).

(** [df.loc[r] = s]. *)
Definition set_row (df : DataFrame) (r : Row) (s : Series) : DataFrame :=
  fun r' m' => if Row_eqb r r' then s m' else df r' m'.

(** [df.loc[r] += s]. *)
Definition add_row (df : DataFrame) (r : Row) (s : Series) : DataFrame :=
  set_row df r (fun m => loc df r m + s m).

(** [x > y] on numbers. *)
Definition Qgtb (x y : Q) : bool := negb (Qle_bool x y).

(** ** [data_load]: the three emissions rows *)

Definition data_load (base_numbers : DataFrame) (emission_factors : Factors)
  : DataFrame :=
  let base_numbers := set_row base_numbers emissions_2018
    (fun m => emission_factors values_2018 m * loc base_numbers vkt_2018 m) in
  let base_numbers := set_row base_numbers emissions_2030_baseline
    (fun m => emission_factors values_2030_baseline m
              * loc base_numbers vkt_2030_baseline m) in
  let base_numbers := set_row base_numbers emissions_2030_scenario
    (fun m => emission_factors values_2030_scenario m
              * loc base_numbers vkt_2030_scenario m) in
  base_numbers.

(** ** [data_initialisation]: the derived constants *)

Module numbers.
Record t : Type := mk {
  pkt_annualisation : Q;
  vkt_annualisation : Q;
  car_occupancy : Q;
  mode_sum_pkt : Q;
  mode_pkt_no_bike : Q;
  bus_lifespan : Q;
  car_ownership_2018 : Q
}.
End numbers.

Definition data_initialisation (base_numbers : DataFrame) : numbers.t :=
  let '(mode_sum_pkt, mode_pkt_no_bike) :=
    fold_left
      (fun '(mode_sum_pkt, mode_pkt_no_bike) mode =>
         let mode_sum_pkt := mode_sum_pkt + loc base_numbers pkt_2030_baseline mode in
         let mode_pkt_no_bike :=
           if mode_neq mode "cycling"
           then mode_pkt_no_bike + loc base_numbers pkt_2030_baseline mode
           else mode_pkt_no_bike in
         (mode_sum_pkt, mode_pkt_no_bike))
      private_modes (0, 0) in
  {| numbers.pkt_annualisation := 2250.0;
     numbers.vkt_annualisation := 332.0;
     numbers.car_occupancy := 1.58;
     numbers.mode_sum_pkt := mode_sum_pkt;
     numbers.mode_pkt_no_bike := mode_pkt_no_bike;
     numbers.bus_lifespan := 15;
     numbers.car_ownership_2018 := 1261016 |}.

(** ** [pt_proj_effects]: the project effect table *)

(** A row of [pt_details.csv]. *)
Record Project : Type := {
  primary_mode : Mode;
  peak_freq : Q;
  off_peak_freq : Q;
  vehicle_capacity : Q;
  distance : Q;
  num_peak_hrs : Q;
  num_hours : Q
}.

(** [pt_details]: project label and its row, in index order. *)
Definition Details : Type := list (string * Project).

(** A row of an effect table.  The tables are created empty, so a cell
    holds NaN ([None]) until it is written. *)
Definition EffectRow : Type := Mode -> option Q.
Definition EffectTable : Type := list (string * EffectRow).

Definition nan_row : EffectRow := fun _ => None.

Definition row_set (r : EffectRow) (m : Mode) (v : option Q) : EffectRow :=
  fun m' => if Mode_eqb m m' then v else r m'.

(** Arithmetic on cells: NaN propagates. *)
Definition cell_mul (a : Q) (c : option Q) : option Q :=
  match c with Some x => Some (a * x) | None => None end.
Definition cell_div (c : option Q) (d : Q) : option Q :=
  match c with Some x => Some (x / d) | None => None end.

(** The body of the loop over [pt_details.index], for one project: the
    project's rows of [pt_effects_vkt] and [pt_effects_pkt]. *)
Definition project_effects (n : numbers.t) (base_numbers : DataFrame) (p : Project)
  : EffectRow * EffectRow :=
  let pkt := row_set nan_row (primary_mode p)
    (Some (60 / peak_freq p
           * distance p
           * numbers.pkt_annualisation n
           * vehicle_capacity p
           * 2
           * 2)) in
  let vkt := row_set nan_row (primary_mode p)
    (Some ((60 / peak_freq p
            * num_peak_hrs p
            + 60 / off_peak_freq p
            * (num_hours p - num_peak_hrs p))
           * distance p
           * numbers.vkt_annualisation n
           * 2)) in
  let '(vkt, pkt) :=
    fold_left
      (fun '(vkt, pkt) mode =>
         let pkt := row_set pkt mode
           (cell_mul (- loc base_numbers pkt_2030_baseline mode / numbers.mode_sum_pkt n)
                     (pkt (primary_mode p))) in
         let vkt :=
           if mode_in mode ["passenger_light"; "electric_light"]
           then row_set vkt mode (cell_div (pkt mode) (numbers.car_occupancy n))
           else if mode_in mode ["walking"; "cycling"]
           then row_set vkt mode (pkt mode)
           else vkt in
         (vkt, pkt))
      private_modes (vkt, pkt) in
  fold_left
    (fun '(vkt, pkt) mode =>
       if negb (Mode_eqb mode (primary_mode p))
       then (row_set vkt mode (Some 0), row_set pkt mode (Some 0))
       else (vkt, pkt))
    pt_modes (vkt, pkt).

(** Returns [(pt_effects_vkt, pt_effects_pkt)]. *)
Definition pt_proj_effects (n : numbers.t) (base_numbers : DataFrame)
    (pt_details : Details) : EffectTable * EffectTable :=
  (map (fun '(project, p) => (project, fst (project_effects n base_numbers p))) pt_details,
   map (fun '(project, p) => (project, snd (project_effects n base_numbers p))) pt_details).

(** ** The stages of the scenario engine *)

(** [table.loc[label]]: the row with that label; [None] is the KeyError of a
    label that is not in the index. *)
Fixpoint table_loc (t : EffectTable) (label : string) : option EffectRow :=
  match t with
  | [] => None
  | (l, r) :: t' => if String.eqb l label then Some r else table_loc t' label
  end.

(** [table.loc[labels]]: the rows selected by a list of labels, in the order
    of the list. *)
Fixpoint table_loc_list (t : EffectTable) (labels : list string)
  : option (list EffectRow) :=
  match labels with
  | [] => Some []
  | l :: ls =>
      match table_loc t l, table_loc_list t ls with
      | Some r, Some rs => Some (r :: rs)
      | _, _ => None
      end
  end.

(** [rows.sum()]: the sum of each column, NaN cells skipped. *)
Definition column_sum (rows : list EffectRow) : Series :=
  fun m =>
    fold_left (fun acc r => match r m with Some x => acc + x | None => acc end) rows 0.

Definition pt_projects_apply (base_numbers : DataFrame)
    (pt_effects_vkt pt_effects_pkt : EffectTable) (pt_included : list string)
  : option DataFrame :=
  match pt_included with
  | [] => Some base_numbers
  | _ =>
      match table_loc_list pt_effects_vkt pt_included with
      | None => None
      | Some rows_vkt =>
          let base_numbers :=
            add_row base_numbers vkt_2030_scenario (column_sum rows_vkt) in
          match table_loc_list pt_effects_pkt pt_included with
          | None => None
          | Some rows_pkt =>
              Some (add_row base_numbers pkt_2030_scenario (column_sum rows_pkt))
          end
      end
  end.

Definition bus_ridership_changes (n : numbers.t) (base_numbers : DataFrame)
    (bus_prop_increase : Q) : DataFrame :=
  if Qgtb bus_prop_increase 0 then
    let bus_change := loc base_numbers pkt_2030_baseline diesel_bus * bus_prop_increase in
    let base_numbers := add_loc base_numbers pkt_2030_scenario diesel_bus bus_change in
    fold_left
      (fun base_numbers mode =>
         let effect :=
           - loc base_numbers pkt_2030_baseline mode
           / numbers.mode_sum_pkt n
           * bus_change in
         let base_numbers := add_loc base_numbers pkt_2030_scenario mode effect in
         if mode_in mode ["passenger_light"; "electric_light"]
         then add_loc base_numbers vkt_2030_scenario mode (effect / numbers.car_occupancy n)
         else if mode_in mode ["walking"; "cycling"]
         then add_loc base_numbers vkt_2030_scenario mode effect
         else base_numbers)
      private_modes base_numbers
  else base_numbers.

(** One iteration of the loop of [cycling_changes].  The local variable
    [effect] is assigned only under [mode != 'cycling'] but read by the vkt
    update of every mode, so it is part of the loop state: [None] while it is
    unbound, and reading it then is Python's UnboundLocalError. *)
Definition cycling_step (n : numbers.t) (cycling_change : Q)
    (st : option (DataFrame * option Q)) (mode : Mode)
  : option (DataFrame * option Q) :=
  match st with
  | None => None
  | Some (base_numbers, effect) =>
      let '(base_numbers, effect) :=
        if mode_neq mode "cycling" then
          let effect :=
            - loc base_numbers pkt_2030_baseline mode
            / numbers.mode_pkt_no_bike n
            * cycling_change in
          (add_loc base_numbers pkt_2030_scenario mode effect, Some effect)
        else (base_numbers, effect) in
      if mode_in mode ["passenger_light"; "electric_light"] then
        match effect with
        | Some e =>
            Some (add_loc base_numbers vkt_2030_scenario mode (e / numbers.car_occupancy n),
                  effect)
        | None => None
        end
      else if mode_in mode ["walking"; "cycling"] then
        match effect with
        | Some e => Some (add_loc base_numbers vkt_2030_scenario mode e, effect)
        | None => None
        end
      else Some (base_numbers, effect)
  end.

Definition cycling_changes (n : numbers.t) (base_numbers : DataFrame)
    (cycling_included : Q) : option DataFrame :=
  if Qgtb cycling_included 0 then
    let cycling_included := cycling_included - 1 in
    let cycling_change := loc base_numbers pkt_2030_baseline cycling * cycling_included in
    let base_numbers := add_loc base_numbers pkt_2030_scenario cycling cycling_change in
    option_map fst
      (fold_left (cycling_step n cycling_change) private_modes (Some (base_numbers, None)))
  else Some base_numbers.

Definition bus_electric (n : numbers.t) (base_numbers : DataFrame)
    (bus_electrification_included : Q) : DataFrame :=
  if Qgtb bus_electrification_included 2019 then
    let prop := (2030 - bus_electrification_included) / numbers.bus_lifespan n in
    let bus_vkt_shift := loc base_numbers vkt_2030_scenario diesel_bus * prop in
    let base_numbers := add_loc base_numbers vkt_2030_scenario diesel_bus (- bus_vkt_shift) in
    let base_numbers := add_loc base_numbers vkt_2030_scenario electric_bus bus_vkt_shift in
    let bus_pkt_shift := loc base_numbers pkt_2030_scenario diesel_bus * prop in
    let base_numbers := add_loc base_numbers pkt_2030_scenario diesel_bus (- bus_pkt_shift) in
    let base_numbers := add_loc base_numbers pkt_2030_scenario electric_bus bus_pkt_shift in
    base_numbers
  else base_numbers.

Definition car_electric (base_numbers : DataFrame) (car_electrification_included : Q)
  : DataFrame :=
  if Qgtb car_electrification_included 0 then
    let car_vkt_shift :=
      loc base_numbers vkt_2030_scenario passenger_light * car_electrification_included in
    let base_numbers :=
      add_loc base_numbers vkt_2030_scenario passenger_light (- car_vkt_shift) in
    let base_numbers :=
      add_loc base_numbers vkt_2030_scenario electric_light car_vkt_shift in
    let car_pkt_shift :=
      loc base_numbers pkt_2030_scenario passenger_light * car_electrification_included in
    let base_numbers :=
      add_loc base_numbers pkt_2030_scenario passenger_light (- car_pkt_shift) in
    let base_numbers :=
      add_loc base_numbers pkt_2030_scenario electric_light car_pkt_shift in
    base_numbers
  else base_numbers.

Definition car_occupancy (base_numbers : DataFrame) (occupancy_included : Q)
  : DataFrame :=
  if Qgtb occupancy_included 0 then
    let base_numbers := set_loc base_numbers vkt_2030_scenario passenger_light
      (loc base_numbers pkt_2030_scenario passenger_light / occupancy_included) in
    let base_numbers := set_loc base_numbers vkt_2030_scenario electric_light
      (loc base_numbers pkt_2030_scenario electric_light / occupancy_included) in
    base_numbers
  else base_numbers.

Definition calculate_emissions (base_numbers : DataFrame) (emission_factors : Factors)
    (car_emission_change : Q) : DataFrame :=
  let base_numbers := set_row base_numbers emissions_2030_scenario
    (fun m => emission_factors values_2030_scenario m
              * loc base_numbers vkt_2030_scenario m) in
  let base_numbers := set_loc base_numbers emissions_2030_scenario passenger_light
    (loc base_numbers emissions_2030_scenario passenger_light
     * (1 - car_emission_change)) in
  base_numbers.

Definition covid_trips (base_numbers : DataFrame) (covid : Q) (n : numbers.t)
  : DataFrame :=
  fold_left
    (fun base_numbers mode =>
       let base_numbers := set_loc base_numbers pkt_2030_scenario mode
         ((1 - covid / 100) * loc base_numbers pkt_2030_scenario mode) in
       if mode_in mode ["cycling"; "walking"]
       then set_loc base_numbers vkt_2030_scenario mode
              (loc base_numbers pkt_2030_scenario mode)
       else if mode_in mode ["light_fleet"; "electric_light"]
       then set_loc base_numbers vkt_2030_scenario mode
              (loc base_numbers pkt_2030_scenario mode / numbers.car_occupancy n)
       else base_numbers)
    all_modes base_numbers.

(** ** [update_graph]: the pipeline *)

(** The arguments of [update_graph], as the controls deliver them. *)
Record Levers : Type := {
  cycling_included : Q;
  bus_prop_increase : Q;
  bus_electrification_included : Q;
  occupancy_included : Q;
  car_electrification_included : Q;
  pt_included : list string;
  car_emission_change : Q;
  covid : Q
}.

(** The module-level values that [update_graph] reads and never assigns. *)
Record Globals : Type := {
  the_numbers : numbers.t;
  emission_factors : Factors;
  pt_effects_vkt : EffectTable;
  pt_effects_pkt : EffectTable
}.

Definition bind {A B : Type} (x : option A) (f : A -> option B) : option B :=
  match x with Some a => f a | None => None end.

Notation "x <- e ;; k" := (bind e (fun x => k))
  (at level 61, e at next level, right associativity).

(** The stages of [update_graph] applied to the contents of the working
    table.  [None] is an exception raised by a stage. *)
Definition scenario (g : Globals) (L : Levers) (base_numbers : DataFrame)
  : option DataFrame :=
  let occupancy_included := occupancy_included L / 100 in
  let car_electrification_included := car_electrification_included L / 100 in
  base_numbers <- pt_projects_apply base_numbers (pt_effects_vkt g) (pt_effects_pkt g)
                    (pt_included L) ;;
  let base_numbers := bus_ridership_changes (the_numbers g) base_numbers (bus_prop_increase L) in
  base_numbers <- cycling_changes (the_numbers g) base_numbers (cycling_included L) ;;
  let base_numbers :=
    bus_electric (the_numbers g) base_numbers (bus_electrification_included L) in
  let base_numbers := car_electric base_numbers car_electrification_included in
  let base_numbers := covid_trips base_numbers (covid L) (the_numbers g) in
  let base_numbers := car_occupancy base_numbers occupancy_included in
  let base_numbers :=
    calculate_emissions base_numbers (emission_factors g) (car_emission_change L) in
  Some base_numbers.

(** ** The table objects of the process

    [update_graph] works on [master_base_numbers.copy()].  Tables are
    objects with identity: a heap maps references to their cells, [copy]
    allocates a new object, and a stage updates the object its argument
    refers to. *)

Definition Ref : Type := nat.
Definition Heap : Type := list DataFrame.

Definition heap_get (h : Heap) (r : Ref) : option DataFrame := nth_error h r.

Fixpoint heap_set (h : Heap) (r : Ref) (d : DataFrame) : Heap :=
  match h, r with
  | [], _ => []
  | _ :: h', O => d :: h'
  | x :: h', S r' => x :: heap_set h' r' d
  end.

(** A computation on the heap that may raise: the result, if any, and the
    heap it leaves. *)
Definition M (A : Type) : Type := Heap -> option A * Heap.

Definition mbind {A B : Type} (c : M A) (k : A -> M B) : M B :=
  fun h => match c h with
           | (Some a, h') => k a h'
           | (None, h') => (None, h')
           end.

Notation "x <~ c ;; k" := (mbind c (fun x => k))
  (at level 61, c at next level, right associativity).

(** [df.copy()]: a new object with the cells of [df]. *)
Definition df_copy (r : Ref) : M Ref :=
  fun h => match heap_get h r with
           | Some d => (Some (List.length h), (h ++ [d])%list)
           | None => (None, h)
           end.

(** Run stages on the object [r] refers to; they return their argument. *)
Definition on_table (f : DataFrame -> option DataFrame) (r : Ref) : M Ref :=
  fun h => match heap_get h r with
           | Some d =>
               match f d with
               | Some d' => (Some r, heap_set h r d')
               | None => (None, h)
               end
           | None => (None, h)
           end.

(** [update_graph] up to the last stage; what follows in the source only
    formats the resulting table for display.  The result is the reference
    held by the local [base_numbers]. *)
Definition update_graph (g : Globals) (master_base_numbers : Ref) (L : Levers) : M Ref :=
  base_numbers <~ df_copy master_base_numbers ;;
  on_table (scenario g L) base_numbers.

(** The module-level initialisation (the three lines after the stage
    definitions), from the three tables read from storage. *)
Definition initialisation (pt_details : Details) (base_numbers : DataFrame)
    (emission_factors : Factors) : DataFrame * Globals :=
  let master_base_numbers := data_load base_numbers emission_factors in
  let n := data_initialisation master_base_numbers in
  let '(pt_effects_vkt, pt_effects_pkt) :=
    pt_proj_effects n master_base_numbers pt_details in
  (master_base_numbers,
   {| the_numbers := n;
      emission_factors := emission_factors;
      pt_effects_vkt := pt_effects_vkt;
      pt_effects_pkt := pt_effects_pkt |}).

(** ** The summary figures of [update_graph]

    After the last stage [update_graph] derives the figures shown beside the
    charts: total emissions per period, an estimate of the number of cars,
    and the colour of each figure.  The formatting of the figures as text
    and the chart traces are not modelled. *)

(** [row.sum()] over the mode columns.  The columns are taken in the order
    of [all_modes]; the order of the columns of the file is not in the
    source, and an exact sum does not depend on it. *)
Definition row_sum (s : Series) : Q :=
  fold_left (fun acc m => acc + s m) all_modes 0.

(** [base_numbers_emissions.loc[row].sum()/(10**9)]. *)
Definition emissions_num (base_numbers : DataFrame) (row : Row) : Q :=
  row_sum (base_numbers row) / 1000000000.

(** The entries of [colors] keyed by a mode. *)
Definition colors (m : Mode) : string :=
  match m with
  | passenger_light => "#f75263"
  | electric_light => "#d52b00"
  | diesel_bus => "#f7f53e"
  | electric_bus => "#eeac00"
  | heavy_rail => "#469ae2"
  | light_rail => "#004786"
  | walking => "#65d799"
  | cycling => "#1f9e65"
  end.

(** The value bound to a colour variable: two branches of each cascade end
    in a comma, which binds a tuple of one string instead of the string. *)
Inductive ColourValue : Set :=
| plain (s : string)
| one_tuple (s : string).

Definition emissions_colour (base_numbers : DataFrame) : ColourValue :=
  let emissions_2018_num := emissions_num base_numbers emissions_2018 in
  let emissions_2030_baseline_num := emissions_num base_numbers emissions_2030_baseline in
  let emissions_2030_scenario_num := emissions_num base_numbers emissions_2030_scenario in
  if Qgtb emissions_2030_scenario_num emissions_2030_baseline_num
  then plain (colors electric_light)
  else if Qgtb emissions_2030_scenario_num emissions_2018_num
  then plain (colors passenger_light)
  else if Qgtb emissions_2030_scenario_num (emissions_2018_num / 2)
  then one_tuple (colors electric_bus)
  else one_tuple (colors walking).

Definition cars_2030_baseline_num (n : numbers.t) (base_numbers : DataFrame) : Q :=
  numbers.car_ownership_2018 n
  / (loc base_numbers vkt_2018 passenger_light + loc base_numbers vkt_2018 electric_light)
  * (loc base_numbers vkt_2030_baseline passenger_light
     + loc base_numbers vkt_2030_baseline electric_light).

Definition cars_2030_scenario_num (n : numbers.t) (base_numbers : DataFrame) : Q :=
  numbers.car_ownership_2018 n
  / (loc base_numbers vkt_2018 passenger_light + loc base_numbers vkt_2018 electric_light)
  * (loc base_numbers vkt_2030_scenario passenger_light
     + loc base_numbers vkt_2030_scenario electric_light).

Definition car_colour (n : numbers.t) (base_numbers : DataFrame) : ColourValue :=
  if Qgtb (cars_2030_scenario_num n base_numbers) (cars_2030_baseline_num n base_numbers)
  then plain (colors electric_light)
  else if Qgtb (cars_2030_scenario_num n base_numbers) 1432825
  then plain (colors passenger_light)
  else if Qgtb (cars_2030_scenario_num n base_numbers) 1089207
  then one_tuple (colors electric_bus)
  else one_tuple (colors walking).

(** The value [sum] gives a cell: NaN counts as nothing. *)
Definition skipna (c : option Q) : Q :=
  match c with Some x => x | None => 0 end.

(** Cell-wise numerical equality of two results of a stage that may raise. *)
Definition same_result (a b : option DataFrame) : Prop :=
  match a, b with
  | Some A, Some B => forall r m, A r m == B r m
  | None, None => True
  | _, _ => False
  end.

(** ** Predicates and lever settings used by the statements *)

(** The rows of 2018 and of the 2030 baseline. *)
Definition fixed_row (r : Row) : bool :=
  match r with
  | pkt_2018 | vkt_2018 | pkt_2030_baseline | vkt_2030_baseline
  | emissions_2018 | emissions_2030_baseline => true
  | pkt_2030_scenario | vkt_2030_scenario | emissions_2030_scenario => false
  end.

(** [D'] has the cells of [D] in every fixed row. *)
Definition keeps_fixed_rows (D D' : DataFrame) : Prop :=
  forall r m, fixed_row r = true -> D' r m = D r m.

(** Every lever at its disabled value; the occupancy control is left open,
    since the stage documents 0 as the value for no change while the
    slider rests at 158. *)
Definition disabled_levers (occupancy : Q) : Levers :=
  {| cycling_included := 0;
     bus_prop_increase := 0;
     bus_electrification_included := 0;
     occupancy_included := occupancy;
     car_electrification_included := 0;
     pt_included := [];
     car_emission_change := 0;
     covid := 0 |}.

(** The levers [L] with the bus-ridership lever set to [r]. *)
Definition with_bus_prop_increase (L : Levers) (r : Q) : Levers :=
  {| cycling_included := cycling_included L;
     bus_prop_increase := r;
     bus_electrification_included := bus_electrification_included L;
     occupancy_included := occupancy_included L;
     car_electrification_included := car_electrification_included L;
     pt_included := pt_included L;
     car_emission_change := car_emission_change L;
     covid := covid L |}.

(** The levers [L] with a label that no project carries added to the
    selection. *)
Definition unknown_project (L : Levers) : Levers :=
  {| cycling_included := cycling_included L;
     bus_prop_increase := bus_prop_increase L;
     bus_electrification_included := bus_electrification_included L;
     occupancy_included := occupancy_included L;
     car_electrification_included := car_electrification_included L;
     pt_included := "Tunnel" :: pt_included L;
     car_emission_change := car_emission_change L;
     covid := covid L |}.

(** The levers [L] with the trip-reduction lever set to [p]. *)
Definition with_covid (L : Levers) (p : Q) : Levers :=
  {| cycling_included := cycling_included L;
     bus_prop_increase := bus_prop_increase L;
     bus_electrification_included := bus_electrification_included L;
     occupancy_included := occupancy_included L;
     car_electrification_included := car_electrification_included L;
     pt_included := pt_included L;
     car_emission_change := car_emission_change L;
     covid := p |}.

(** The levers [L] with the car-electrification lever set to [f]. *)
Definition with_car_electrification (L : Levers) (f : Q) : Levers :=
  {| cycling_included := cycling_included L;
     bus_prop_increase := bus_prop_increase L;
     bus_electrification_included := bus_electrification_included L;
     occupancy_included := occupancy_included L;
     car_electrification_included := f;
     pt_included := pt_included L;
     car_emission_change := car_emission_change L;
     covid := covid L |}.

(** Scenario pkt of [B] against [A]: no less on the two bus modes, no more on
    the private modes. *)
Definition pkt_order (A B : DataFrame) : Prop :=
  loc A pkt_2030_scenario diesel_bus <= loc B pkt_2030_scenario diesel_bus
  /\ loc A pkt_2030_scenario electric_bus <= loc B pkt_2030_scenario electric_bus
  /\ forall m, In m private_modes ->
       loc B pkt_2030_scenario m <= loc A pkt_2030_scenario m.

(** The same, for tables with one baseline pkt row. *)
Definition ridership_order (A B : DataFrame) : Prop :=
  (forall m, A pkt_2030_baseline m = B pkt_2030_baseline m) /\ pkt_order A B.

(** The pkt the project carries on its primary mode. *)
Definition primary_pkt (n : numbers.t) (p : Project) : Q :=
  60 / peak_freq p * distance p * numbers.pkt_annualisation n * vehicle_capacity p * 2 * 2.

(** The pkt effect of a project on a private mode. *)
Definition private_pkt_effect (n : numbers.t) (base : DataFrame) (p : Project) (m : Mode) : Q :=
  - loc base pkt_2030_baseline m / numbers.mode_sum_pkt n * primary_pkt n p.

(** A row of [pt_effects_pkt] computed for a project with a transit primary
    mode. *)
Definition transit_row (n : numbers.t) (base : DataFrame) (row : EffectRow) : Prop :=
  exists p, In (primary_mode p) pt_modes /\ row = snd (project_effects n base p).

(** ** Sample data *)

(** A small table used to run the stages on concrete cells: the three pkt
    rows and the three vkt rows hold the same figures for each period, and
    the emissions rows are the placeholders [data_load] overwrites. *)
Definition sample_pkt : Series := fun m =>
  match m with
  | passenger_light => 1580 | electric_light => 158
  | walking => 200 | cycling => 62
  | diesel_bus => 100000 | electric_bus => 30
  | heavy_rail => 60 | light_rail => 0
  end.

Definition sample_vkt : Series := fun m =>
  match m with
  | passenger_light => 1000 | electric_light => 100
  | walking => 90 | cycling => 62
  | diesel_bus => 5000 | electric_bus => 2
  | heavy_rail => 3 | light_rail => 0
  end.

Definition sample_base : DataFrame := fun r =>
  match r with
  | pkt_2018 | pkt_2030_baseline | pkt_2030_scenario => sample_pkt
  | vkt_2018 | vkt_2030_baseline | vkt_2030_scenario => sample_vkt
  | _ => fun _ => 0
  end.

(** A table that meets the conditions of the no-op law: like the sample, with
    the vkt of walking equal to its pkt. *)
Definition consistent_base : DataFrame := fun r =>
  match r with
  | vkt_2018 | vkt_2030_baseline | vkt_2030_scenario =>
      fun m => match m with walking => 200 | _ => sample_vkt m end
  | _ => sample_base r
  end.

(** The sample with 1000000 in the scenario vkt of passenger_light. *)
Definition million_base : DataFrame :=
  set_loc sample_base vkt_2030_scenario passenger_light 1000000.

(** Emission factors, the same for the three periods. *)
Definition sample_factors : Factors := fun _ m =>
  match m with
  | passenger_light => 0.25 | diesel_bus => 1.5 | heavy_rail => 0.5
  | _ => 0
  end.

Definition sample_numbers : numbers.t := data_initialisation sample_base.

(** Two projects in the shape of rows of [pt_details.csv]. *)
Definition sample_project : Project :=
  {| primary_mode := diesel_bus; peak_freq := 5; off_peak_freq := 10;
     vehicle_capacity := 50; distance := 7; num_peak_hrs := 4; num_hours := 18 |}.

Definition sample_rail : Project :=
  {| primary_mode := light_rail; peak_freq := 6; off_peak_freq := 12;
     vehicle_capacity := 400; distance := 20; num_peak_hrs := 4; num_hours := 18 |}.

(** A project whose primary mode is not a transit mode. *)
Definition cycleway : Project :=
  {| primary_mode := cycling; peak_freq := 10; off_peak_freq := 10;
     vehicle_capacity := 1; distance := 12; num_peak_hrs := 4; num_hours := 18 |}.

Definition sample_details : Details :=
  [("AMETI", sample_project); ("AirportLightRail", sample_rail)].

(** The module-level values computed from the sample tables. *)
Definition sample_master : DataFrame :=
  fst (initialisation sample_details sample_base sample_factors).

Definition sample_globals : Globals :=
  snd (initialisation sample_details sample_base sample_factors).

(** A setting with every lever in use. *)
Definition sample_levers : Levers :=
  {| cycling_included := 5;
     bus_prop_increase := 0.4;
     bus_electrification_included := 2025;
     occupancy_included := 170;
     car_electrification_included := 30;
     pt_included := ["AMETI"];
     car_emission_change := 0.1;
     covid := 20 |}.

(** * Properties *)

(** ** Evaluation of the table operations *)

Lemma Qgtb_true (x y : Q) : Qgtb x y = true <-> y < x.
Proof.
  unfold Qgtb. rewrite negb_true_iff.
  split; intro H.
  - apply Qnot_le_lt. intro Hle. apply Qle_bool_iff in Hle. congruence.
  - destruct (Qle_bool x y) eqn:E; [|reflexivity].
    apply Qle_bool_iff in E. exfalso. apply (Qlt_not_le _ _ H E).
Qed.

Lemma Qgtb_false (x y : Q) : Qgtb x y = false <-> x <= y.
Proof.
  unfold Qgtb. rewrite negb_false_iff. apply Qle_bool_iff.
Qed.

(** Unfold the stages and the table operations down to arithmetic on cells,
    leaving the arithmetic itself alone. *)
Ltac cells :=
  cbv -[Qplus Qminus Qmult Qdiv Qopp Qinv Qeq Qle Qlt Qgtb Qle_bool
        numbers.mode_sum_pkt numbers.mode_pkt_no_bike numbers.car_occupancy
        numbers.bus_lifespan numbers.pkt_annualisation numbers.vkt_annualisation].

(** Case analysis on a mode drawn from a literal list. *)
Ltac each_mode H :=
  repeat (destruct H as [H | H]; [subst | ]); try contradiction.

(** ** Bus ridership (stage 2) *)

Lemma bus_ridership_disabled (n : numbers.t) (D : DataFrame) (r : Q) :
  r <= 0 -> bus_ridership_changes n D r = D.
Proof.
  intros Hr. unfold bus_ridership_changes.
  apply Qgtb_false in Hr. rewrite Hr. reflexivity.
Qed.

Lemma bus_ridership_bus_pkt (n : numbers.t) (D : DataFrame) (r : Q) :
  0 < r ->
  loc (bus_ridership_changes n D r) pkt_2030_scenario diesel_bus
  == loc D pkt_2030_scenario diesel_bus + loc D pkt_2030_baseline diesel_bus * r.
Proof.
  intros Hr. unfold bus_ridership_changes.
  apply Qgtb_true in Hr. rewrite Hr. cells. reflexivity.
Qed.

Lemma bus_ridership_private_pkt (n : numbers.t) (D : DataFrame) (r : Q) (m : Mode) :
  0 < r -> In m private_modes ->
  loc (bus_ridership_changes n D r) pkt_2030_scenario m
  == loc D pkt_2030_scenario m
     - loc D pkt_2030_baseline m / numbers.mode_sum_pkt n
       * (loc D pkt_2030_baseline diesel_bus * r).
Proof.
  intros Hr Hm. unfold bus_ridership_changes.
  apply Qgtb_true in Hr. rewrite Hr.
  each_mode Hm; cells; unfold Qdiv; ring.
Qed.

Lemma bus_ridership_light_vkt (n : numbers.t) (D : DataFrame) (r : Q) (m : Mode) :
  0 < r -> In m [passenger_light; electric_light] ->
  loc (bus_ridership_changes n D r) vkt_2030_scenario m
  == loc D vkt_2030_scenario m
     - loc D pkt_2030_baseline m / numbers.mode_sum_pkt n
       * (loc D pkt_2030_baseline diesel_bus * r) / numbers.car_occupancy n.
Proof.
  intros Hr Hm. unfold bus_ridership_changes.
  apply Qgtb_true in Hr. rewrite Hr.
  each_mode Hm; cells; unfold Qdiv; ring.
Qed.

Lemma bus_ridership_active_vkt (n : numbers.t) (D : DataFrame) (r : Q) (m : Mode) :
  0 < r -> In m [walking; cycling] ->
  loc (bus_ridership_changes n D r) vkt_2030_scenario m
  == loc D vkt_2030_scenario m
     - loc D pkt_2030_baseline m / numbers.mode_sum_pkt n
       * (loc D pkt_2030_baseline diesel_bus * r).
Proof.
  intros Hr Hm. unfold bus_ridership_changes.
  apply Qgtb_true in Hr. rewrite Hr.
  each_mode Hm; cells; unfold Qdiv; ring.
Qed.

(** C5.  With [r > 0] the bus-ridership stage adds
    [baseline_pkt[diesel_bus] * r] to the scenario pkt of diesel buses and
    takes [baseline_pkt[m] / mode_sum_pkt] of that amount from the scenario
    pkt of every private mode [m]; the scenario vkt of the two light-vehicle
    modes changes by the pkt change divided by the car occupancy, that of
    walking and cycling by the pkt change itself.  With [r <= 0] no cell
    changes.  With a baseline of 100000 and [r = 0.4] the amount is 40000. *)
Theorem bus_ridership_changes_shift (n : numbers.t) (D : DataFrame) (r : Q) :
  let D' := bus_ridership_changes n D r in
  let share m := loc D pkt_2030_baseline m / numbers.mode_sum_pkt n in
  (0 < r ->
   let bus_change := loc D pkt_2030_baseline diesel_bus * r in
   loc D' pkt_2030_scenario diesel_bus
   == loc D pkt_2030_scenario diesel_bus + bus_change
   /\ (forall m, In m private_modes ->
       loc D' pkt_2030_scenario m == loc D pkt_2030_scenario m - share m * bus_change)
   /\ (forall m, In m [passenger_light; electric_light] ->
       loc D' vkt_2030_scenario m
       == loc D vkt_2030_scenario m - share m * bus_change / numbers.car_occupancy n)
   /\ (forall m, In m [walking; cycling] ->
       loc D' vkt_2030_scenario m == loc D vkt_2030_scenario m - share m * bus_change))
  /\ (r <= 0 -> forall row m, D' row m = D row m)
  /\ (loc D pkt_2030_baseline diesel_bus == 100000 -> r == 0.4 ->
      loc D' pkt_2030_scenario diesel_bus == loc D pkt_2030_scenario diesel_bus + 40000
      /\ (forall m, In m private_modes ->
          loc D' pkt_2030_scenario m == loc D pkt_2030_scenario m - share m * 40000)).
Proof.
  cbv zeta. split; [|split].
  - intros Hr. repeat split.
    + apply bus_ridership_bus_pkt, Hr.
    + intros m Hm. apply bus_ridership_private_pkt; assumption.
    + intros m Hm. apply bus_ridership_light_vkt; assumption.
    + intros m Hm. apply bus_ridership_active_vkt; assumption.
  - intros Hr row m. rewrite (bus_ridership_disabled n D r Hr). reflexivity.
  - intros Hb Hr4.
    assert (Hr : 0 < r) by (rewrite Hr4; reflexivity).
    assert (Hc : loc D pkt_2030_baseline diesel_bus * r == 40000)
      by (rewrite Hb, Hr4; reflexivity).
    split.
    + rewrite (bus_ridership_bus_pkt n D r Hr), Hc. reflexivity.
    + intros m Hm. rewrite (bus_ridership_private_pkt n D r m Hr Hm), Hc. reflexivity.
Qed.

Lemma bus_ridership_changes_shift_witness :
  loc (bus_ridership_changes sample_numbers sample_base 0.4) pkt_2030_scenario diesel_bus
  == 140000
  /\ loc (bus_ridership_changes sample_numbers sample_base 0.4) pkt_2030_scenario walking
     == 200 - 200 / 2000 * 40000.
Proof.
  destruct (bus_ridership_changes_shift sample_numbers sample_base 0.4)
    as (_ & _ & H).
  destruct H as [Hbus Hprivate]; [reflexivity | reflexivity | ].
  split.
  - rewrite Hbus. reflexivity.
  - rewrite (Hprivate walking); [reflexivity | simpl; tauto].
Defined.

(** ** Electrification (stages 4 and 5) *)

Lemma bus_electric_cells (n : numbers.t) (D : DataFrame) (y : Q) (row : Row) :
  In row [pkt_2030_scenario; vkt_2030_scenario] ->
  2019 < y ->
  let prop := (2030 - y) / numbers.bus_lifespan n in
  loc (bus_electric n D y) row diesel_bus
  == loc D row diesel_bus - loc D row diesel_bus * prop
  /\ loc (bus_electric n D y) row electric_bus
     == loc D row electric_bus + loc D row diesel_bus * prop.
Proof.
  intros Hrow Hy. unfold bus_electric. apply Qgtb_true in Hy. rewrite Hy.
  each_mode Hrow; cells; split; unfold Qdiv; ring.
Qed.

Lemma car_electric_cells (D : DataFrame) (f : Q) (row : Row) :
  In row [pkt_2030_scenario; vkt_2030_scenario] ->
  0 < f ->
  loc (car_electric D f) row passenger_light
  == loc D row passenger_light - loc D row passenger_light * f
  /\ loc (car_electric D f) row electric_light
     == loc D row electric_light + loc D row passenger_light * f.
Proof.
  intros Hrow Hf. unfold car_electric. apply Qgtb_true in Hf. rewrite Hf.
  each_mode Hrow; cells; split; ring.
Qed.

(** C4.  The bus-electrification stage leaves the sum of diesel-bus and
    electric-bus cells of the scenario pkt row, and of the scenario vkt row,
    as it was; the car-electrification stage does the same for the two
    light-vehicle modes.  With a start year after 2019 the stage moves the
    share [(2030 - y) / bus_lifespan] of the diesel-bus cell, and with
    [f > 0] the share [f] of the passenger-light cell.  A fraction of 0.25
    on a passenger-light scenario vkt of 1000000 leaves 750000 there and adds
    250000 to electric-light, the 1000000 staying within the two modes. *)
Theorem electrification_conserves (n : numbers.t) (D : DataFrame) (y f : Q) :
  (forall row, In row [pkt_2030_scenario; vkt_2030_scenario] ->
     loc (bus_electric n D y) row diesel_bus + loc (bus_electric n D y) row electric_bus
     == loc D row diesel_bus + loc D row electric_bus
     /\ loc (car_electric D f) row passenger_light
        + loc (car_electric D f) row electric_light
        == loc D row passenger_light + loc D row electric_light)
  /\ (2019 < y -> forall row, In row [pkt_2030_scenario; vkt_2030_scenario] ->
      loc (bus_electric n D y) row diesel_bus
      == loc D row diesel_bus
         - loc D row diesel_bus * ((2030 - y) / numbers.bus_lifespan n))
  /\ (0 < f -> forall row, In row [pkt_2030_scenario; vkt_2030_scenario] ->
      loc (car_electric D f) row passenger_light
      == loc D row passenger_light - loc D row passenger_light * f)
  /\ (loc D vkt_2030_scenario passenger_light == 1000000 ->
      loc (car_electric D 0.25) vkt_2030_scenario passenger_light == 750000
      /\ loc (car_electric D 0.25) vkt_2030_scenario electric_light
         == loc D vkt_2030_scenario electric_light + 250000
      /\ loc (car_electric D 0.25) vkt_2030_scenario passenger_light
         + loc (car_electric D 0.25) vkt_2030_scenario electric_light
         == 1000000 + loc D vkt_2030_scenario electric_light).
Proof.
  split; [|split; [|split]].
  - intros row Hrow. split.
    + destruct (Qgtb y 2019) eqn:Ey.
      * apply Qgtb_true in Ey.
        destruct (bus_electric_cells n D y row Hrow Ey) as [Hd He].
        rewrite Hd, He. ring.
      * unfold bus_electric. rewrite Ey. reflexivity.
    + destruct (Qgtb f 0) eqn:Ef.
      * apply Qgtb_true in Ef.
        destruct (car_electric_cells D f row Hrow Ef) as [Hp He].
        rewrite Hp, He. ring.
      * unfold car_electric. rewrite Ef. reflexivity.
  - intros Hy row Hrow. apply bus_electric_cells; assumption.
  - intros Hf row Hrow. apply car_electric_cells; assumption.
  - intros H.
    destruct (car_electric_cells D 0.25 vkt_2030_scenario) as [Hp He];
      [simpl; tauto | reflexivity | ].
    rewrite Hp, He, H. repeat split; ring.
Qed.

Lemma electrification_conserves_witness :
  loc (car_electric million_base 0.25) vkt_2030_scenario passenger_light == 750000
  /\ loc (car_electric million_base 0.25) vkt_2030_scenario electric_light
     == 100 + 250000
  /\ loc (bus_electric sample_numbers million_base 2025) pkt_2030_scenario diesel_bus
     == 100000 - 100000 * (5 / 15).
Proof.
  destruct (electrification_conserves sample_numbers million_base 2025 0.25)
    as (_ & Hbus & _ & Hcar).
  destruct Hcar as (Hp & He & _); [reflexivity | ].
  split; [exact Hp | split].
  - rewrite He. reflexivity.
  - rewrite (Hbus (eq_refl : 2019 < 2025) pkt_2030_scenario); [reflexivity | simpl; tauto].
Defined.

(** ** Trip reduction (stage 6) *)

Lemma covid_trips_pkt (n : numbers.t) (D : DataFrame) (p : Q) (m : Mode) :
  loc (covid_trips D p n) pkt_2030_scenario m
  = (1 - p / 100) * loc D pkt_2030_scenario m.
Proof. destruct m; reflexivity. Qed.

Lemma covid_trips_vkt_active (n : numbers.t) (D : DataFrame) (p : Q) (m : Mode) :
  In m [walking; cycling] ->
  loc (covid_trips D p n) vkt_2030_scenario m
  = loc (covid_trips D p n) pkt_2030_scenario m.
Proof. intros Hm. each_mode Hm; reflexivity. Qed.

Lemma covid_trips_vkt_electric_light (n : numbers.t) (D : DataFrame) (p : Q) :
  loc (covid_trips D p n) vkt_2030_scenario electric_light
  = loc (covid_trips D p n) pkt_2030_scenario electric_light / numbers.car_occupancy n.
Proof. reflexivity. Qed.

Lemma covid_trips_vkt_untouched (n : numbers.t) (D : DataFrame) (p : Q) (m : Mode) :
  In m [passenger_light; diesel_bus; electric_bus; heavy_rail; light_rail] ->
  loc (covid_trips D p n) vkt_2030_scenario m = loc D vkt_2030_scenario m.
Proof. intros Hm. each_mode Hm; reflexivity. Qed.

(** C2, as the program has it.  The trip-reduction stage multiplies the
    scenario pkt of every mode of [all_modes] by [1 - p/100]; it sets the
    scenario vkt of walking and of cycling to their new scenario pkt; it
    sets the scenario vkt of electric_light to its new scenario pkt divided
    by the car occupancy; and it leaves the scenario vkt of passenger_light
    as it was. *)
Theorem covid_trips_scales (n : numbers.t) (D : DataFrame) (p : Q) :
  let D' := covid_trips D p n in
  (forall m, In m all_modes ->
     loc D' pkt_2030_scenario m = (1 - p / 100) * loc D pkt_2030_scenario m)
  /\ loc D' vkt_2030_scenario walking = (1 - p / 100) * loc D pkt_2030_scenario walking
  /\ loc D' vkt_2030_scenario cycling = (1 - p / 100) * loc D pkt_2030_scenario cycling
  /\ loc D' vkt_2030_scenario electric_light
     = (1 - p / 100) * loc D pkt_2030_scenario electric_light / numbers.car_occupancy n
  /\ loc D' vkt_2030_scenario passenger_light = loc D vkt_2030_scenario passenger_light.
Proof.
  cbv zeta. repeat split.
  intros m _. apply covid_trips_pkt.
Qed.

Lemma covid_trips_scales_witness :
  loc (covid_trips sample_base 50 sample_numbers) pkt_2030_scenario walking == 100
  /\ loc (covid_trips sample_base 50 sample_numbers) vkt_2030_scenario electric_light == 50.
Proof.
  destruct (covid_trips_scales sample_numbers sample_base 50) as (Hpkt & _ & _ & Hel & _).
  split.
  - rewrite (Hpkt walking); [reflexivity | simpl; tauto].
  - rewrite Hel. reflexivity.
Defined.

(** C2 as stated fails: on the sample table a reduction of 50 percent
    changes the scenario vkt of electric_light from 100 to 50, so the stage
    does not leave the scenario vkt of both light-vehicle modes unchanged. *)
Lemma covid_trips_light_vkt_counterexample :
  ~ (forall m, In m [passenger_light; electric_light] ->
       loc (covid_trips sample_base 50 sample_numbers) vkt_2030_scenario m
       == loc sample_base vkt_2030_scenario m).
Proof.
  intros H. specialize (H electric_light (or_intror (or_introl eq_refl))).
  vm_compute in H. discriminate H.
Qed.

(** C10.  For every trip-reduction percentage the stage leaves the scenario
    vkt of passenger_light, diesel_bus, electric_bus, heavy_rail and
    light_rail as it was, and writes exactly three scenario vkt cells:
    walking and cycling receive their new scenario pkt, electric_light its
    new scenario pkt divided by the car occupancy.  This holds at [p = 0]
    too, where the three cells are overwritten from the unchanged pkt. *)
Theorem covid_trips_vkt_writes (n : numbers.t) (D : DataFrame) (p : Q) :
  let D' := covid_trips D p n in
  (forall m, In m [passenger_light; diesel_bus; electric_bus; heavy_rail; light_rail] ->
     loc D' vkt_2030_scenario m = loc D vkt_2030_scenario m)
  /\ (forall m, In m [walking; cycling] ->
      loc D' vkt_2030_scenario m = loc D' pkt_2030_scenario m)
  /\ loc D' vkt_2030_scenario electric_light
     = loc D' pkt_2030_scenario electric_light / numbers.car_occupancy n
  /\ (forall m, In m [walking; cycling] ->
      loc (covid_trips D 0 n) vkt_2030_scenario m == loc D pkt_2030_scenario m)
  /\ loc (covid_trips D 0 n) vkt_2030_scenario electric_light
     == loc D pkt_2030_scenario electric_light / numbers.car_occupancy n.
Proof.
  cbv zeta. split; [|split; [|split; [|split]]].
  - apply covid_trips_vkt_untouched.
  - apply covid_trips_vkt_active.
  - apply covid_trips_vkt_electric_light.
  - intros m Hm. rewrite (covid_trips_vkt_active n D 0 m Hm), covid_trips_pkt.
    unfold Qdiv. ring.
  - rewrite covid_trips_vkt_electric_light, covid_trips_pkt. unfold Qdiv. ring.
Qed.

Lemma covid_trips_vkt_writes_witness :
  loc (covid_trips sample_base 0 sample_numbers) vkt_2030_scenario walking == 200
  /\ loc (covid_trips sample_base 0 sample_numbers) vkt_2030_scenario passenger_light
     = 1000.
Proof.
  destruct (covid_trips_vkt_writes sample_numbers sample_base 0) as (Hsame & _ & _ & Hw & _).
  split.
  - rewrite (Hw walking); [reflexivity | simpl; tauto].
  - rewrite (Hsame passenger_light); [reflexivity | simpl; tauto].
Defined.

(** ** Cycling (stage 3) *)

(** The stage never raises: [effect] is bound by the first private mode
    before any mode reads it. *)
Lemma cycling_changes_returns (n : numbers.t) (D : DataFrame) (c : Q) :
  exists D', cycling_changes n D c = Some D'.
Proof.
  unfold cycling_changes. destruct (Qgtb c 0); eexists; reflexivity.
Qed.

Lemma cycling_changes_disabled (n : numbers.t) (D : DataFrame) (c : Q) :
  c <= 0 -> cycling_changes n D c = Some D.
Proof.
  intros Hc. unfold cycling_changes. apply Qgtb_false in Hc. rewrite Hc. reflexivity.
Qed.

(** What the stage does to each cell it writes, for [c > 0].  The scenario
    vkt of cycling receives the [effect] left by the walking iteration. *)
Lemma cycling_changes_cells (n : numbers.t) (D : DataFrame) (c : Q) :
  0 < c ->
  let cycling_change := loc D pkt_2030_baseline cycling * (c - 1) in
  let share m := loc D pkt_2030_baseline m / numbers.mode_pkt_no_bike n in
  match cycling_changes n D c with
  | None => False
  | Some D' =>
      loc D' pkt_2030_scenario cycling == loc D pkt_2030_scenario cycling + cycling_change
      /\ (forall m, In m [passenger_light; electric_light; walking] ->
          loc D' pkt_2030_scenario m
          == loc D pkt_2030_scenario m - share m * cycling_change)
      /\ (forall m, In m [passenger_light; electric_light] ->
          loc D' vkt_2030_scenario m
          == loc D vkt_2030_scenario m
             - share m * cycling_change / numbers.car_occupancy n)
      /\ loc D' vkt_2030_scenario walking
         == loc D vkt_2030_scenario walking - share walking * cycling_change
      /\ loc D' vkt_2030_scenario cycling
         == loc D vkt_2030_scenario cycling - share walking * cycling_change
  end.
Proof.
  intros Hc. cbv zeta. unfold cycling_changes.
  apply Qgtb_true in Hc. rewrite Hc.
  cbn [fold_left private_modes option_map cycling_step].
  cells.
  split; [|split; [|split; [|split]]].
  - reflexivity.
  - intros m Hm. each_mode Hm; unfold Qdiv; ring.
  - intros m Hm. each_mode Hm; unfold Qdiv; ring.
  - unfold Qdiv; ring.
  - unfold Qdiv; ring.
Qed.

(** C3 at a concrete input.  On the sample table with the lever at 5 the
    increase of cycling pkt is [62 * 4 = 248].  The stage adds it to the
    scenario pkt of cycling, but the scenario vkt of cycling goes from 62 to
    [62 - 200/1938 * 248]: it receives the draw-down computed for walking
    instead of the increase. *)
Theorem cycling_changes_vkt_at_sample :
  match cycling_changes sample_numbers sample_base 5 with
  | None => False
  | Some D' =>
      loc D' pkt_2030_scenario cycling == 62 + 248
      /\ loc D' vkt_2030_scenario cycling == 62 - 200 / 1938 * 248
      /\ ~ loc D' vkt_2030_scenario cycling == 62 + 248
  end.
Proof.
  vm_compute. repeat split; discriminate.
Qed.

(** ** Derived constants and the project effect table *)

Lemma data_initialisation_sums (base : DataFrame) :
  numbers.mode_sum_pkt (data_initialisation base)
  = 0 + loc base pkt_2030_baseline passenger_light
      + loc base pkt_2030_baseline electric_light
      + loc base pkt_2030_baseline walking
      + loc base pkt_2030_baseline cycling
  /\ numbers.mode_pkt_no_bike (data_initialisation base)
     = 0 + loc base pkt_2030_baseline passenger_light
         + loc base pkt_2030_baseline electric_light
         + loc base pkt_2030_baseline walking
  /\ numbers.car_occupancy (data_initialisation base) = 1.58
  /\ numbers.pkt_annualisation (data_initialisation base) = 2250.0.
Proof. repeat split. Qed.

Section ProjectEffects.
Variable n : numbers.t.
Variable base : DataFrame.
Variable p : Project.
Hypothesis primary_is_transit : In (primary_mode p) pt_modes.

Lemma project_primary_pkt :
  snd (project_effects n base p) (primary_mode p) = Some (primary_pkt n p).
Proof.
  destruct p as [pm pf opf cap dist nph nh]. simpl in *.
  each_mode primary_is_transit; reflexivity.
Qed.

Lemma project_other_transit (m : Mode) :
  In m pt_modes -> m <> primary_mode p ->
  snd (project_effects n base p) m = Some 0 /\ fst (project_effects n base p) m = Some 0.
Proof.
  destruct p as [pm pf opf cap dist nph nh]. simpl in *.
  intros Hm Hne.
  each_mode primary_is_transit; each_mode Hm;
    solve [ split; reflexivity | exfalso; apply Hne; reflexivity ].
Qed.

Lemma project_private_pkt (m : Mode) :
  In m private_modes -> snd (project_effects n base p) m = Some (private_pkt_effect n base p m).
Proof.
  destruct p as [pm pf opf cap dist nph nh]. simpl in *.
  intros Hm. each_mode primary_is_transit; each_mode Hm; reflexivity.
Qed.

Lemma project_light_vkt (m : Mode) :
  In m [passenger_light; electric_light] ->
  fst (project_effects n base p) m = Some (private_pkt_effect n base p m / numbers.car_occupancy n).
Proof.
  destruct p as [pm pf opf cap dist nph nh]. simpl in *.
  intros Hm. each_mode primary_is_transit; each_mode Hm; reflexivity.
Qed.

Lemma project_active_vkt (m : Mode) :
  In m [walking; cycling] ->
  fst (project_effects n base p) m = Some (private_pkt_effect n base p m).
Proof.
  destruct p as [pm pf opf cap dist nph nh]. simpl in *.
  intros Hm. each_mode primary_is_transit; each_mode Hm; reflexivity.
Qed.
End ProjectEffects.

Lemma primary_pkt_nonneg (n : numbers.t) (p : Project) :
  0 <= numbers.pkt_annualisation n ->
  0 < peak_freq p -> 0 <= distance p -> 0 <= vehicle_capacity p ->
  0 <= primary_pkt n p.
Proof.
  intros Ha Hf Hd Hc. unfold primary_pkt.
  assert (H60 : 0 <= 60 / peak_freq p).
  { apply Qle_shift_div_l; [assumption | ]. lra. }
  do 5 (apply Qmult_le_0_compat; [ | first [assumption | lra] ]).
  exact H60.
Qed.

Lemma private_pkt_effect_nonpos (n : numbers.t) (base : DataFrame) (p : Project) (m : Mode) :
  0 <= loc base pkt_2030_baseline m ->
  0 < numbers.mode_sum_pkt n ->
  0 <= primary_pkt n p ->
  private_pkt_effect n base p m <= 0.
Proof.
  intros Hb Hs HP. unfold private_pkt_effect.
  assert (Hshare : 0 <= loc base pkt_2030_baseline m / numbers.mode_sum_pkt n).
  { apply Qle_shift_div_l; [assumption | ]. rewrite Qmult_0_l. assumption. }
  assert (Hprod : 0 <= loc base pkt_2030_baseline m / numbers.mode_sum_pkt n * primary_pkt n p)
    by (apply Qmult_le_0_compat; assumption).
  setoid_replace (- loc base pkt_2030_baseline m / numbers.mode_sum_pkt n * primary_pkt n p)
    with (- (loc base pkt_2030_baseline m / numbers.mode_sum_pkt n * primary_pkt n p))
    by (unfold Qdiv; ring).
  lra.
Qed.

Lemma pt_proj_effects_In (n : numbers.t) (base : DataFrame) (pt_details : Details)
    (label : string) (p : Project) :
  In (label, p) pt_details ->
  In (label, fst (project_effects n base p)) (fst (pt_proj_effects n base pt_details))
  /\ In (label, snd (project_effects n base p)) (snd (pt_proj_effects n base pt_details)).
Proof.
  intros Hin. unfold pt_proj_effects. simpl. split.
  - apply (in_map (fun '(project, p) => (project, fst (project_effects n base p)))
             pt_details (label, p) Hin).
  - apply (in_map (fun '(project, p) => (project, snd (project_effects n base p)))
             pt_details (label, p) Hin).
Qed.

(** C7.  For every project of [pt_details] whose primary mode is a transit
    mode, the rows of the two effect tables computed with the derived
    constants of the same table satisfy: (1) the pkt and vkt effect on every
    transit mode other than the primary mode is 0; (2) the pkt effect on a
    private mode [m] is [-(baseline_pkt[m] / mode_sum_pkt)] times the pkt
    effect on the primary mode, and it is at most 0 when the private baseline
    pkt values are non-negative with a total that is not 0, the peak
    frequency is positive and the distance and vehicle capacity are
    non-negative; (3) the vkt effect on passenger_light and electric_light
    is that pkt effect divided by the car occupancy, and on walking and
    cycling it is that pkt effect. *)
Theorem pt_proj_effects_rows (base : DataFrame) (pt_details : Details)
    (label : string) (p : Project) :
  let n := data_initialisation base in
  let vkt := fst (project_effects n base p) in
  let pkt := snd (project_effects n base p) in
  In (label, p) pt_details ->
  In (primary_mode p) pt_modes ->
  In (label, vkt) (fst (pt_proj_effects n base pt_details))
  /\ In (label, pkt) (snd (pt_proj_effects n base pt_details))
  /\ (forall m, In m pt_modes -> m <> primary_mode p -> pkt m = Some 0 /\ vkt m = Some 0)
  /\ exists P,
      pkt (primary_mode p) = Some P
      /\ forall m, In m private_modes ->
         exists e,
           pkt m = Some e
           /\ e == - (loc base pkt_2030_baseline m / numbers.mode_sum_pkt n) * P
           /\ ((forall m', In m' private_modes -> 0 <= loc base pkt_2030_baseline m') ->
               ~ numbers.mode_sum_pkt n == 0 ->
               0 < peak_freq p -> 0 <= distance p -> 0 <= vehicle_capacity p ->
               e <= 0)
           /\ (In m [passenger_light; electric_light] ->
               vkt m = Some (e / numbers.car_occupancy n))
           /\ (In m [walking; cycling] -> vkt m = Some e).
Proof.
  intros n vkt pkt Hin Hpt.
  destruct (pt_proj_effects_In n base pt_details label p Hin) as [Hv Hp].
  split; [exact Hv | split; [exact Hp | split]].
  - intros m Hm Hne. apply project_other_transit; assumption.
  - exists (primary_pkt n p). split; [apply project_primary_pkt; assumption | ].
    intros m Hm. exists (private_pkt_effect n base p m).
    split; [apply project_private_pkt; assumption | ].
    split; [unfold private_pkt_effect, Qdiv; ring | ].
    split; [ | split].
    + intros Hbase Hsum Hf Hd Hc.
      apply private_pkt_effect_nonpos.
      * apply Hbase, Hm.
      * assert (H1 := Hbase passenger_light (or_introl eq_refl)).
        assert (H2 := Hbase electric_light (or_intror (or_introl eq_refl))).
        assert (H3 := Hbase walking (or_intror (or_intror (or_introl eq_refl)))).
        assert (H4 := Hbase cycling (or_intror (or_intror (or_intror (or_introl eq_refl))))).
        destruct (data_initialisation_sums base) as (Hs & _).
        fold n in Hs. rewrite Hs in Hsum |- *. lra.
      * apply primary_pkt_nonneg; try assumption.
        subst n. simpl. lra.
    + intros Hl. apply project_light_vkt; assumption.
    + intros Ha. apply project_active_vkt; assumption.
Qed.

Lemma pt_proj_effects_rows_witness :
  snd (project_effects (data_initialisation sample_base) sample_base sample_rail) diesel_bus
  = Some 0
  /\ exists e,
       snd (project_effects (data_initialisation sample_base) sample_base sample_rail) walking
       = Some e /\ e <= 0.
Proof.
  destruct (pt_proj_effects_rows sample_base sample_details "AirportLightRail" sample_rail)
    as (_ & _ & Hzero & P & _ & Hprivate).
  - simpl. tauto.
  - simpl. tauto.
  - split.
    + apply Hzero; [simpl; tauto | discriminate].
    + destruct (Hprivate walking) as (e & He & _ & Hsign & _); [simpl; tauto | ].
      exists e. split; [exact He | ].
      apply Hsign.
      * intros m' Hm'. each_mode Hm'; vm_compute; discriminate.
      * vm_compute. discriminate.
      * reflexivity.
      * vm_compute. discriminate.
      * vm_compute. discriminate.
Defined.

(** ** Transit projects (stage 1) *)

Lemma pt_projects_apply_empty (D : DataFrame) (tv tp : EffectTable) :
  pt_projects_apply D tv tp [] = Some D.
Proof. reflexivity. Qed.

Lemma column_sum_cons (r : EffectRow) (rows : list EffectRow) (m : Mode) :
  column_sum (r :: rows) m
  == match r m with Some x => x | None => 0 end + column_sum rows m.
Proof.
  unfold column_sum. simpl.
  assert (Hacc : forall a,
    fold_left (fun acc r0 => match r0 m with Some x => acc + x | None => acc end) rows a
    == a + fold_left (fun acc r0 => match r0 m with Some x => acc + x | None => acc end) rows 0).
  { induction rows as [|r1 rows IH]; intros a; simpl.
    - ring.
    - rewrite IH. rewrite (IH (match r1 m with Some x => 0 + x | None => 0 end)).
      destruct (r1 m); ring. }
  rewrite Hacc. destruct (r m); ring.
Qed.

(** A selected row is the row computed for some project of [pt_details]. *)
Lemma table_loc_project (n : numbers.t) (base : DataFrame) (pt_details : Details)
    (label : string) :
  In label (map fst pt_details) ->
  exists p, In (label, p) pt_details
    /\ table_loc (fst (pt_proj_effects n base pt_details)) label
       = Some (fst (project_effects n base p))
    /\ table_loc (snd (pt_proj_effects n base pt_details)) label
       = Some (snd (project_effects n base p)).
Proof.
  induction pt_details as [|[l p] rest IH]; simpl; [contradiction | ].
  intros Hin. destruct (String.eqb l label) eqn:E.
  - apply String.eqb_eq in E. subst l. exists p. auto.
  - destruct Hin as [Heq | Hin]; [subst; rewrite String.eqb_refl in E; discriminate | ].
    destruct (IH Hin) as (q & Hq & Hv & Hp). exists q. auto.
Qed.

Lemma table_loc_list_rows (n : numbers.t) (base : DataFrame) (pt_details : Details)
    (labels : list string) :
  (forall l p, In (l, p) pt_details -> In (primary_mode p) pt_modes) ->
  (forall l, In l labels -> In l (map fst pt_details)) ->
  (exists rows, table_loc_list (fst (pt_proj_effects n base pt_details)) labels = Some rows)
  /\ exists rows,
       table_loc_list (snd (pt_proj_effects n base pt_details)) labels = Some rows
       /\ Forall (transit_row n base) rows.
Proof.
  intros Htransit. induction labels as [|l ls IH]; intros Hall.
  - split; eexists; [reflexivity | split; [reflexivity | constructor]].
  - destruct IH as ((rv & Hrv) & (rp & Hrp & Hforall)).
    { intros l' Hl'. apply Hall. right. exact Hl'. }
    destruct (table_loc_project n base pt_details l) as (p & Hp & Hv & Hpk).
    { apply Hall. left. reflexivity. }
    split.
    + exists (fst (project_effects n base p) :: rv).
      cbn [table_loc_list]. rewrite Hv, Hrv. reflexivity.
    + exists (snd (project_effects n base p) :: rp).
      cbn [table_loc_list]. rewrite Hpk, Hrp. split; [reflexivity | ].
      constructor; [ | exact Hforall].
      exists p. split; [eapply Htransit; exact Hp | reflexivity].
Qed.

(** The summed pkt effect of the selected projects on a private mode is its
    baseline share of one common amount. *)
Lemma column_sum_private (n : numbers.t) (base : DataFrame) (rows : list EffectRow) :
  Forall (transit_row n base) rows ->
  exists S, forall m, In m private_modes ->
    column_sum rows m == - (loc base pkt_2030_baseline m / numbers.mode_sum_pkt n * S).
Proof.
  induction 1 as [|row rows (p & Hpt & Hrow) _ (S & IH)].
  - exists 0. intros m _. unfold column_sum. simpl. ring.
  - exists (primary_pkt n p + S). intros m Hm.
    rewrite column_sum_cons, (IH m Hm). subst row.
    rewrite (project_private_pkt n base p Hpt m Hm).
    unfold private_pkt_effect, Qdiv. ring.
Qed.

Lemma ratio_of_cross (a b c d : Q) :
  ~ b == 0 -> ~ d == 0 -> a * d == b * c -> a / b == c / d.
Proof.
  intros Hb Hd H.
  setoid_replace (a / b) with ((a * d) / (b * d)) by (field; split; assumption).
  rewrite H. field. split; assumption.
Qed.

Lemma pt_projects_apply_private_pkt (n : numbers.t) (D : DataFrame)
    (pt_details : Details) (included : list string) :
  (forall l p, In (l, p) pt_details -> In (primary_mode p) pt_modes) ->
  (forall l, In l included -> In l (map fst pt_details)) ->
  exists D' S,
    pt_projects_apply D (fst (pt_proj_effects n D pt_details))
      (snd (pt_proj_effects n D pt_details)) included = Some D'
    /\ forall m, In m private_modes ->
       loc D' pkt_2030_scenario m
       == loc D pkt_2030_scenario m
          - loc D pkt_2030_baseline m / numbers.mode_sum_pkt n * S.
Proof.
  intros Htransit Hall.
  destruct (table_loc_list_rows n D pt_details included Htransit Hall)
    as ((rv & Hrv) & (rp & Hrp & Hforall)).
  destruct (column_sum_private n D rp Hforall) as (S & HS).
  destruct included as [|l ls].
  - exists D, 0. split; [reflexivity | ]. intros m _. ring.
  - eexists. exists S. unfold pt_projects_apply. rewrite Hrv, Hrp.
    split; [reflexivity | ].
    intros m Hm. unfold add_row, set_row, loc. simpl. unfold loc.
    rewrite (HS m Hm). unfold loc. ring.
Qed.

(** C8.  Let the decrease of a private mode be its scenario pkt before the
    stage minus its scenario pkt after it.  After the bus-ridership stage
    alone, and after the transit-project stage alone (projects with a transit
    primary mode, selected among the labels of [pt_details]), the decreases
    of two private modes [m1], [m2] are in the ratio of their baseline pkt:
    [dec m1 * b m2 = dec m2 * b m1], and when the baseline pkt of the private
    modes is positive, the divisor [mode_sum_pkt] is not 0 and the decrease
    of [m2] is not 0, [dec m1 / dec m2 = b m1 / b m2]. *)
Theorem private_decreases_proportional (n : numbers.t) (D : DataFrame)
    (pt_details : Details) (included : list string) (r : Q) (m1 m2 : Mode) :
  let b m := loc D pkt_2030_baseline m in
  let dec (D' : DataFrame) m := loc D pkt_2030_scenario m - loc D' pkt_2030_scenario m in
  let proportional (D' : DataFrame) :=
    dec D' m1 * b m2 == dec D' m2 * b m1
    /\ (~ dec D' m2 == 0 -> dec D' m1 / dec D' m2 == b m1 / b m2) in
  In m1 private_modes -> In m2 private_modes ->
  (forall m, In m private_modes -> 0 < b m) ->
  ~ numbers.mode_sum_pkt n == 0 ->
  (forall l p, In (l, p) pt_details -> In (primary_mode p) pt_modes) ->
  (forall l, In l included -> In l (map fst pt_details)) ->
  proportional (bus_ridership_changes n D r)
  /\ exists D',
       pt_projects_apply D (fst (pt_proj_effects n D pt_details))
         (snd (pt_proj_effects n D pt_details)) included = Some D'
       /\ proportional D'.
Proof.
  intros b dec proportional Hm1 Hm2 Hpos Hsum Htransit Hall.
  assert (Hb2 : ~ b m2 == 0).
  { intros H0. specialize (Hpos m2 Hm2). rewrite H0 in Hpos. discriminate Hpos. }
  assert (Hfrom : forall D' S,
    (forall m, In m private_modes ->
       loc D' pkt_2030_scenario m
       == loc D pkt_2030_scenario m - b m / numbers.mode_sum_pkt n * S) ->
    proportional D').
  { intros D' S HD'.
    assert (Hcross : dec D' m1 * b m2 == dec D' m2 * b m1).
    { unfold dec. rewrite (HD' m1 Hm1), (HD' m2 Hm2). unfold Qdiv. ring. }
    split; [exact Hcross | ].
    intros Hd2. apply ratio_of_cross; assumption. }
  split.
  - destruct (Qgtb r 0) eqn:Er.
    + apply Qgtb_true in Er.
      apply (Hfrom _ (loc D pkt_2030_baseline diesel_bus * r)).
      intros m Hm. apply bus_ridership_private_pkt; assumption.
    + apply Qgtb_false in Er.
      apply (Hfrom _ 0). intros m Hm.
      rewrite (bus_ridership_disabled n D r Er). ring.
  - destruct (pt_projects_apply_private_pkt n D pt_details included Htransit Hall)
      as (D' & S & Happly & HD').
    exists D'. split; [exact Happly | ].
    apply (Hfrom D' S). exact HD'.
Qed.

Lemma private_decreases_proportional_witness :
  (1580 - loc (bus_ridership_changes sample_numbers sample_base 0.4)
            pkt_2030_scenario passenger_light)
  / (200 - loc (bus_ridership_changes sample_numbers sample_base 0.4)
             pkt_2030_scenario walking)
  == 1580 / 200.
Proof.
  destruct (private_decreases_proportional sample_numbers sample_base sample_details
              ["AMETI"; "AirportLightRail"] 0.4 passenger_light walking)
    as ((_ & Hratio) & _).
  - simpl. tauto.
  - simpl. tauto.
  - intros m Hm. each_mode Hm; reflexivity.
  - vm_compute. discriminate.
  - intros l p Hin. simpl in Hin.
    destruct Hin as [H | [H | []]]; inversion H; subst; simpl; tauto.
  - intros l Hin. exact Hin.
  - apply Hratio. vm_compute. discriminate.
Defined.

(** ** Rows the engine never writes *)

Ltac fixed_cells :=
  let r := fresh "r" in let m := fresh "m" in let H := fresh "H" in
  intros r m H; destruct r; try discriminate H; destruct m; reflexivity.

Lemma keeps_fixed_rows_refl (D : DataFrame) : keeps_fixed_rows D D.
Proof. intros r m _. reflexivity. Qed.

Lemma keeps_fixed_rows_trans (A B C : DataFrame) :
  keeps_fixed_rows A B -> keeps_fixed_rows B C -> keeps_fixed_rows A C.
Proof. intros HAB HBC r m H. rewrite (HBC r m H). apply HAB, H. Qed.

Lemma pt_projects_apply_fixed (D D' : DataFrame) (tv tp : EffectTable)
    (included : list string) :
  pt_projects_apply D tv tp included = Some D' -> keeps_fixed_rows D D'.
Proof.
  unfold pt_projects_apply. destruct included as [|l ls].
  - intros H. inversion H. apply keeps_fixed_rows_refl.
  - destruct (table_loc_list tv (l :: ls)) as [rv|]; [|discriminate].
    destruct (table_loc_list tp (l :: ls)) as [rp|]; [|discriminate].
    intros H. inversion H. subst D'. clear H.
    intros r m H. destruct r; try discriminate H; reflexivity.
Qed.

Lemma bus_ridership_changes_fixed (n : numbers.t) (D : DataFrame) (r : Q) :
  keeps_fixed_rows D (bus_ridership_changes n D r).
Proof.
  unfold bus_ridership_changes. destruct (Qgtb r 0); [fixed_cells | apply keeps_fixed_rows_refl].
Qed.

Lemma cycling_changes_fixed (n : numbers.t) (D D' : DataFrame) (c : Q) :
  cycling_changes n D c = Some D' -> keeps_fixed_rows D D'.
Proof.
  unfold cycling_changes. destruct (Qgtb c 0); intros H; inversion H; subst D'; clear H.
  - fixed_cells.
  - apply keeps_fixed_rows_refl.
Qed.

Lemma bus_electric_fixed (n : numbers.t) (D : DataFrame) (y : Q) :
  keeps_fixed_rows D (bus_electric n D y).
Proof.
  unfold bus_electric. destruct (Qgtb y 2019); [fixed_cells | apply keeps_fixed_rows_refl].
Qed.

Lemma car_electric_fixed (D : DataFrame) (f : Q) :
  keeps_fixed_rows D (car_electric D f).
Proof.
  unfold car_electric. destruct (Qgtb f 0); [fixed_cells | apply keeps_fixed_rows_refl].
Qed.

Lemma covid_trips_fixed (n : numbers.t) (D : DataFrame) (p : Q) :
  keeps_fixed_rows D (covid_trips D p n).
Proof. fixed_cells. Qed.

Lemma car_occupancy_fixed (D : DataFrame) (o : Q) :
  keeps_fixed_rows D (car_occupancy D o).
Proof.
  unfold car_occupancy. destruct (Qgtb o 0); [fixed_cells | apply keeps_fixed_rows_refl].
Qed.

Lemma calculate_emissions_fixed (D : DataFrame) (ef : Factors) (e : Q) :
  keeps_fixed_rows D (calculate_emissions D ef e).
Proof. fixed_cells. Qed.

(** The pipeline as equations between its intermediate tables. *)
Lemma scenario_stages (g : Globals) (L : Levers) (D D' : DataFrame) :
  scenario g L D = Some D' <->
  exists D1 D3,
    pt_projects_apply D (pt_effects_vkt g) (pt_effects_pkt g) (pt_included L) = Some D1
    /\ cycling_changes (the_numbers g)
         (bus_ridership_changes (the_numbers g) D1 (bus_prop_increase L))
         (cycling_included L) = Some D3
    /\ D' = calculate_emissions
              (car_occupancy
                 (covid_trips
                    (car_electric
                       (bus_electric (the_numbers g) D3 (bus_electrification_included L))
                       (car_electrification_included L / 100))
                    (covid L) (the_numbers g))
                 (occupancy_included L / 100))
              (emission_factors g) (car_emission_change L).
Proof.
  unfold scenario, bind. split.
  - destruct (pt_projects_apply D (pt_effects_vkt g) (pt_effects_pkt g) (pt_included L))
      as [D1|] eqn:H1; [|discriminate].
    destruct (cycling_changes (the_numbers g)
                (bus_ridership_changes (the_numbers g) D1 (bus_prop_increase L))
                (cycling_included L)) as [D3|] eqn:H3; [|discriminate].
    intros H. injection H as H. subst D'. exists D1, D3. repeat split. exact H3.
  - intros (D1 & D3 & H1 & H3 & HD'). rewrite H1, H3, HD'. reflexivity.
Qed.

(** The pipeline raises only when the project stage does. *)
Lemma scenario_returns (g : Globals) (L : Levers) (D : DataFrame) :
  (exists D1,
     pt_projects_apply D (pt_effects_vkt g) (pt_effects_pkt g) (pt_included L) = Some D1)
  <-> exists D', scenario g L D = Some D'.
Proof.
  split.
  - intros (D1 & H1).
    destruct (cycling_changes_returns (the_numbers g)
                (bus_ridership_changes (the_numbers g) D1 (bus_prop_increase L))
                (cycling_included L)) as (D3 & H3).
    eexists. apply scenario_stages. exists D1, D3. auto.
  - intros (D' & H). apply scenario_stages in H. destruct H as (D1 & _ & H1 & _).
    exists D1. exact H1.
Qed.

Lemma scenario_fixed (g : Globals) (L : Levers) (D D' : DataFrame) :
  scenario g L D = Some D' -> keeps_fixed_rows D D'.
Proof.
  intros H. apply scenario_stages in H. destruct H as (D1 & D3 & H1 & H3 & HD').
  subst D'.
  eapply keeps_fixed_rows_trans; [ | apply calculate_emissions_fixed].
  eapply keeps_fixed_rows_trans; [ | apply car_occupancy_fixed].
  eapply keeps_fixed_rows_trans; [ | apply covid_trips_fixed].
  eapply keeps_fixed_rows_trans; [ | apply car_electric_fixed].
  eapply keeps_fixed_rows_trans; [ | apply bus_electric_fixed].
  eapply keeps_fixed_rows_trans; [ | eapply cycling_changes_fixed; exact H3].
  eapply keeps_fixed_rows_trans; [ | apply bus_ridership_changes_fixed].
  eapply pt_projects_apply_fixed; exact H1.
Qed.

(** ** The master table and the working copy *)

Lemma heap_get_old (h : Heap) (d : DataFrame) (r : Ref) (x : DataFrame) :
  heap_get h r = Some x -> heap_get (h ++ [d])%list r = Some x.
Proof.
  unfold heap_get. intros H.
  rewrite nth_error_app1; [exact H | ].
  apply nth_error_Some. rewrite H. discriminate.
Qed.

Lemma heap_get_new (h : Heap) (d : DataFrame) :
  heap_get (h ++ [d])%list (List.length h) = Some d.
Proof.
  unfold heap_get. rewrite nth_error_app2, Nat.sub_diag; [reflexivity | lia].
Qed.

Lemma heap_set_new (h : Heap) (d d' : DataFrame) :
  heap_set (h ++ [d])%list (List.length h) d' = (h ++ [d'])%list.
Proof.
  induction h as [|x h IH]; simpl; [reflexivity | rewrite IH; reflexivity].
Qed.

Lemma heap_get_fresh (h : Heap) (r : Ref) (x : DataFrame) :
  heap_get h r = Some x -> List.length h <> r.
Proof.
  unfold heap_get. intros H Heq. subst r.
  assert (Hlt : (List.length h < List.length h)%nat)
    by (apply nth_error_Some; rewrite H; discriminate).
  lia.
Qed.

(** One call of [update_graph]: the copy is a new object, the stages run on
    it, and the heap that was there is a prefix of the heap left behind. *)
Lemma update_graph_run (g : Globals) (master : Ref) (L : Levers) (h : Heap)
    (D : DataFrame) :
  heap_get h master = Some D ->
  update_graph g master L h
  = match scenario g L D with
    | Some D' => (Some (List.length h), (h ++ [D'])%list)
    | None => (None, (h ++ [D])%list)
    end.
Proof.
  intros H. unfold update_graph, mbind, df_copy, on_table.
  rewrite H, heap_get_new.
  destruct (scenario g L D) as [D'|]; [rewrite heap_set_new | ]; reflexivity.
Qed.

(** C6.  Every stage, and the pipeline as a whole, leaves every cell of the
    rows pkt_2018, vkt_2018, pkt_2030_baseline, vkt_2030_baseline,
    emissions_2018 and emissions_2030_baseline as it was.  A call of
    [update_graph] changes no table that existed before the call, the master
    table among them; the table it returns is a new object whose cells are
    the pipeline applied to the cells of the master table, so they depend on
    the master table, the effect tables, the derived constants, the emission
    factors and the lever settings only; and a later call, on the heap the
    first call left, again yields the pipeline applied to the same master
    cells. *)
Theorem baseline_rows_read_only (g : Globals) (L : Levers) (D : DataFrame)
    (h : Heap) (master : Ref) :
  (forall tv tp included D',
     pt_projects_apply D tv tp included = Some D' -> keeps_fixed_rows D D')
  /\ (forall n r, keeps_fixed_rows D (bus_ridership_changes n D r))
  /\ (forall n c D', cycling_changes n D c = Some D' -> keeps_fixed_rows D D')
  /\ (forall n y, keeps_fixed_rows D (bus_electric n D y))
  /\ (forall f, keeps_fixed_rows D (car_electric D f))
  /\ (forall n p, keeps_fixed_rows D (covid_trips D p n))
  /\ (forall o, keeps_fixed_rows D (car_occupancy D o))
  /\ (forall ef e, keeps_fixed_rows D (calculate_emissions D ef e))
  /\ (forall D', scenario g L D = Some D' -> keeps_fixed_rows D D')
  /\ (heap_get h master = Some D ->
      forall res h', update_graph g master L h = (res, h') ->
        (forall r d, heap_get h r = Some d -> heap_get h' r = Some d)
        /\ match res with
           | Some base_numbers =>
               base_numbers <> master
               /\ heap_get h base_numbers = None
               /\ heap_get h' base_numbers = scenario g L D
           | None => scenario g L D = None
           end
        /\ forall L2 res2 h2, update_graph g master L2 h' = (res2, h2) ->
           heap_get h2 master = Some D
           /\ match res2 with
              | Some base_numbers2 => heap_get h2 base_numbers2 = scenario g L2 D
              | None => scenario g L2 D = None
              end).
Proof.
  repeat match goal with |- _ /\ _ => split end.
  - intros tv tp included D'. apply pt_projects_apply_fixed.
  - intros n r. apply bus_ridership_changes_fixed.
  - intros n c D'. apply cycling_changes_fixed.
  - intros n y. apply bus_electric_fixed.
  - apply car_electric_fixed.
  - intros n p. apply covid_trips_fixed.
  - apply car_occupancy_fixed.
  - apply calculate_emissions_fixed.
  - apply scenario_fixed.
  - intros Hmaster res h' Hrun.
    rewrite (update_graph_run g master L h D Hmaster) in Hrun.
    assert (Hold : forall r d, heap_get h r = Some d -> heap_get h' r = Some d).
    { intros r d Hr.
      destruct (scenario g L D); injection Hrun as _ Hh'; subst h';
        apply heap_get_old, Hr. }
    split; [exact Hold | split].
    + destruct (scenario g L D) as [D'|]; injection Hrun as Hres Hh'; subst res h'.
      * split; [eapply heap_get_fresh; exact Hmaster | split].
        -- unfold heap_get. apply nth_error_None. lia.
        -- apply heap_get_new.
      * reflexivity.
    + intros L2 res2 h2 Hrun2.
      rewrite (update_graph_run g master L2 h' D (Hold master D Hmaster)) in Hrun2.
      destruct (scenario g L2 D) as [D2|]; injection Hrun2 as Hres Hh2; subst res2 h2.
      * split; [apply heap_get_old, Hold, Hmaster | apply heap_get_new].
      * split; [apply heap_get_old, Hold, Hmaster | reflexivity].
Qed.

Lemma baseline_rows_read_only_witness :
  heap_get (snd (update_graph sample_globals 0%nat sample_levers [sample_master])) 0%nat
  = Some sample_master
  /\ fst (update_graph sample_globals 0%nat sample_levers [sample_master]) <> Some 0%nat.
Proof.
  destruct (baseline_rows_read_only sample_globals sample_levers sample_master
              [sample_master] 0%nat) as (_ & _ & _ & _ & _ & _ & _ & _ & _ & Hrun).
  destruct (update_graph sample_globals 0%nat sample_levers [sample_master])
    as [res h'] eqn:E.
  destruct (Hrun eq_refl res h' eq_refl) as (Hold & Hres & _).
  split.
  - apply Hold. reflexivity.
  - simpl. destruct res as [b|]; [ | discriminate].
    destruct Hres as (Hne & _). intros Heq. injection Heq as Heq. contradiction.
Defined.

(** ** All levers disabled *)

Lemma bus_electric_disabled (n : numbers.t) (D : DataFrame) (y : Q) :
  y <= 2019 -> bus_electric n D y = D.
Proof.
  intros Hy. unfold bus_electric. apply Qgtb_false in Hy. rewrite Hy. reflexivity.
Qed.

Lemma car_electric_disabled (D : DataFrame) (f : Q) :
  f <= 0 -> car_electric D f = D.
Proof.
  intros Hf. unfold car_electric. apply Qgtb_false in Hf. rewrite Hf. reflexivity.
Qed.

Lemma car_occupancy_disabled (D : DataFrame) (o : Q) :
  o <= 0 -> car_occupancy D o = D.
Proof.
  intros Ho. unfold car_occupancy. apply Qgtb_false in Ho. rewrite Ho. reflexivity.
Qed.

Lemma scenario_disabled (g : Globals) (occupancy : Q) (D : DataFrame) :
  scenario g (disabled_levers occupancy) D
  = Some (calculate_emissions
            (car_occupancy (covid_trips D 0 (the_numbers g)) (occupancy / 100))
            (emission_factors g) 0).
Proof.
  unfold scenario, disabled_levers; cbn [pt_included bus_prop_increase cycling_included
    bus_electrification_included car_electrification_included covid
    car_emission_change occupancy_included].
  rewrite pt_projects_apply_empty. cbn [bind].
  rewrite bus_ridership_disabled by lra.
  rewrite cycling_changes_disabled by lra. cbn [bind].
  rewrite bus_electric_disabled by lra.
  rewrite car_electric_disabled by (compute; discriminate).
  reflexivity.
Qed.
Lemma initialisation_parts (pt_details : Details) (raw : DataFrame) (ef : Factors) :
  fst (initialisation pt_details raw ef) = data_load raw ef
  /\ the_numbers (snd (initialisation pt_details raw ef))
     = data_initialisation (data_load raw ef)
  /\ emission_factors (snd (initialisation pt_details raw ef)) = ef.
Proof. repeat split. Qed.

(** C1, as the program has it.  Take a loaded table whose scenario pkt and
    vkt rows equal its baseline rows, whose baseline vkt equals the baseline
    pkt for walking and for cycling and the baseline pkt divided by 1.58 for
    electric_light, and whose 2030-scenario emission factors equal the
    2030-baseline factors.  With every lever at its disabled value (the
    occupancy control at 0, or at 158 when the baseline vkt of
    passenger_light is its baseline pkt divided by 1.58 as well) the pipeline
    returns a table whose scenario pkt, vkt and emissions rows equal the
    baseline rows, and whose scenario emissions are the 2030-baseline factor
    times the baseline vkt for every mode. *)
Theorem disabled_levers_reproduce_baseline (pt_details : Details) (raw : DataFrame)
    (ef : Factors) (occupancy : Q) :
  let master := fst (initialisation pt_details raw ef) in
  let g := snd (initialisation pt_details raw ef) in
  (forall m, loc raw pkt_2030_scenario m == loc raw pkt_2030_baseline m) ->
  (forall m, loc raw vkt_2030_scenario m == loc raw vkt_2030_baseline m) ->
  (forall m, ef values_2030_scenario m == ef values_2030_baseline m) ->
  loc raw vkt_2030_baseline walking == loc raw pkt_2030_baseline walking ->
  loc raw vkt_2030_baseline cycling == loc raw pkt_2030_baseline cycling ->
  loc raw vkt_2030_baseline electric_light
  == loc raw pkt_2030_baseline electric_light / 1.58 ->
  (occupancy <= 0
   \/ (occupancy == 158
       /\ loc raw vkt_2030_baseline passenger_light
          == loc raw pkt_2030_baseline passenger_light / 1.58)) ->
  exists D',
    scenario g (disabled_levers occupancy) master = Some D'
    /\ forall m,
       loc D' pkt_2030_scenario m == loc master pkt_2030_baseline m
       /\ loc D' vkt_2030_scenario m == loc master vkt_2030_baseline m
       /\ loc D' emissions_2030_scenario m == loc master emissions_2030_baseline m
       /\ loc D' emissions_2030_scenario m
          == ef values_2030_baseline m * loc master vkt_2030_baseline m.
Proof.
  intros master g Hpkt Hvkt Hef Hw Hc Hel Hocc.
  eexists. split; [apply scenario_disabled | ].
  destruct (initialisation_parts pt_details raw ef) as (Hm & Hn & He).
  subst master g. rewrite Hm, Hn, He. clear Hm Hn He.
  unfold loc in *.
  destruct Hocc as [Hocc | [Hocc Hpl]].
  - rewrite car_occupancy_disabled
      by (apply Qle_shift_div_r; [reflexivity | lra]).
    intros m. destruct m; cbv -[Qplus Qminus Qmult Qdiv Qopp Qinv Qeq Qle Qlt];
      repeat split;
      rewrite ?Hpkt, ?Hvkt, ?Hef, ?Hw, ?Hc, ?Hel; unfold Qdiv; ring.
  - assert (Hgt : Qgtb (occupancy / 100) 0 = true)
      by (apply Qgtb_true; rewrite Hocc; reflexivity).
    unfold car_occupancy. rewrite Hgt.
    intros m. destruct m; cbv -[Qplus Qminus Qmult Qdiv Qopp Qinv Qeq Qle Qlt];
      repeat split;
      rewrite ?Hpkt, ?Hvkt, ?Hef, ?Hw, ?Hc, ?Hel, ?Hpl, ?Hocc; field.
Qed.

Lemma disabled_levers_reproduce_baseline_witness :
  exists D',
    scenario (snd (initialisation sample_details consistent_base sample_factors))
      (disabled_levers 158)
      (fst (initialisation sample_details consistent_base sample_factors)) = Some D'
    /\ loc D' vkt_2030_scenario passenger_light == 1000
    /\ loc D' emissions_2030_scenario diesel_bus == 7500.
Proof.
  destruct (disabled_levers_reproduce_baseline sample_details consistent_base
              sample_factors 158) as (D' & Hrun & Hcells).
  - intros m. reflexivity.
  - intros m. reflexivity.
  - intros m. reflexivity.
  - reflexivity.
  - reflexivity.
  - reflexivity.
  - right. split; reflexivity.
  - exists D'. split; [exact Hrun | ].
    destruct (Hcells passenger_light) as (_ & Hv & _).
    destruct (Hcells diesel_bus) as (_ & _ & _ & He).
    split; [rewrite Hv | rewrite He]; reflexivity.
Defined.

(** C1 as stated fails: on the sample table, whose scenario rows equal its
    baseline rows and whose emission factors are the same for every period,
    the pipeline with every lever disabled leaves 200 in the scenario vkt of
    walking, where the baseline vkt is 90; this is so with the occupancy
    control at 0 and at 158. *)
Lemma disabled_levers_counterexample :
  (forall m, loc sample_master pkt_2030_scenario m = loc sample_master pkt_2030_baseline m)
  /\ (forall m, loc sample_master vkt_2030_scenario m = loc sample_master vkt_2030_baseline m)
  /\ forall occupancy, In occupancy [0; 158] ->
     ~ exists D',
         scenario sample_globals (disabled_levers occupancy) sample_master = Some D'
         /\ forall m, loc D' vkt_2030_scenario m == loc sample_master vkt_2030_baseline m.
Proof.
  split; [intros m; reflexivity | split; [intros m; reflexivity | ]].
  intros occupancy Hin (D' & Hrun & Hcells).
  rewrite scenario_disabled in Hrun. injection Hrun as Hrun. subst D'.
  specialize (Hcells walking).
  destruct Hin as [H | [H | []]]; subst occupancy; vm_compute in Hcells; discriminate Hcells.
Qed.

(** ** Monotonicity in the bus-ridership lever *)

Lemma Qmult_le_r_nonneg (a b k : Q) : a <= b -> 0 <= k -> a * k <= b * k.
Proof.
  intros Hab Hk.
  assert (H : 0 <= (b - a) * k) by (apply Qmult_le_0_compat; lra).
  lra.
Qed.

Lemma bus_ridership_stage_order (n : numbers.t) (D : DataFrame) (r1 r2 : Q) :
  (forall m, 0 <= loc D pkt_2030_baseline m) ->
  0 < numbers.mode_sum_pkt n ->
  r1 <= r2 ->
  ridership_order (bus_ridership_changes n D r1) (bus_ridership_changes n D r2).
Proof.
  intros Hbase Hsum Hr.
  split.
  { intros m. rewrite (bus_ridership_changes_fixed n D r1 pkt_2030_baseline m eq_refl).
    rewrite (bus_ridership_changes_fixed n D r2 pkt_2030_baseline m eq_refl). reflexivity. }
  assert (Hbus := Hbase diesel_bus).
  assert (Hshare : forall m, 0 <= loc D pkt_2030_baseline m / numbers.mode_sum_pkt n).
  { intros m. apply Qle_shift_div_l; [assumption | ]. specialize (Hbase m). lra. }
  (* the amount moved, for either lever value *)
  pose (amount := fun r : Q => if Qgtb r 0 then loc D pkt_2030_baseline diesel_bus * r else 0).
  assert (Hcells : forall r,
    loc (bus_ridership_changes n D r) pkt_2030_scenario diesel_bus
    == loc D pkt_2030_scenario diesel_bus + amount r
    /\ loc (bus_ridership_changes n D r) pkt_2030_scenario electric_bus
       == loc D pkt_2030_scenario electric_bus
    /\ forall m, In m private_modes ->
       loc (bus_ridership_changes n D r) pkt_2030_scenario m
       == loc D pkt_2030_scenario m
          - loc D pkt_2030_baseline m / numbers.mode_sum_pkt n * amount r).
  { intros r. unfold amount. destruct (Qgtb r 0) eqn:Er.
    - apply Qgtb_true in Er. split; [apply bus_ridership_bus_pkt, Er | split].
      + unfold bus_ridership_changes. apply Qgtb_true in Er. rewrite Er. reflexivity.
      + intros m Hm. apply bus_ridership_private_pkt; assumption.
    - apply Qgtb_false in Er. rewrite (bus_ridership_disabled n D r Er).
      split; [ring | split; [reflexivity | intros m _; ring]]. }
  assert (Hamount : amount r1 <= amount r2).
  { unfold amount. destruct (Qgtb r1 0) eqn:E1, (Qgtb r2 0) eqn:E2.
    - rewrite (Qmult_comm _ r1), (Qmult_comm _ r2).
      apply Qmult_le_r_nonneg; assumption.
    - apply Qgtb_true in E1. apply Qgtb_false in E2. lra.
    - apply Qgtb_true in E2. apply Qmult_le_0_compat; lra.
    - lra. }
  destruct (Hcells r1) as (Hd1 & He1 & Hp1), (Hcells r2) as (Hd2 & He2 & Hp2).
  split; [rewrite Hd1, Hd2; lra | split; [rewrite He1, He2; lra | ]].
  intros m Hm. rewrite (Hp1 m Hm), (Hp2 m Hm).
  assert (H := Qmult_le_r_nonneg _ _ _ Hamount (Hshare m)).
  lra.
Qed.

Lemma cycling_changes_order (n : numbers.t) (A B A' B' : DataFrame) (c : Q) :
  ridership_order A B ->
  cycling_changes n A c = Some A' -> cycling_changes n B c = Some B' ->
  ridership_order A' B'.
Proof.
  intros (Hbase & Hbus & Hebus & Hpriv) HA HB.
  split.
  { intros m. rewrite (cycling_changes_fixed n A A' c HA pkt_2030_baseline m eq_refl).
    rewrite (cycling_changes_fixed n B B' c HB pkt_2030_baseline m eq_refl). apply Hbase. }
  unfold cycling_changes in HA, HB. destruct (Qgtb c 0).
  - injection HA as HA. injection HB as HB. subst A' B'.
    assert (H1 := Hpriv passenger_light (or_introl eq_refl)).
    assert (H2 := Hpriv electric_light (or_intror (or_introl eq_refl))).
    assert (H3 := Hpriv walking (or_intror (or_intror (or_introl eq_refl)))).
    assert (H4 := Hpriv cycling (or_intror (or_intror (or_intror (or_introl eq_refl))))).
    unfold loc in *.
    split; [exact Hbus | split; [exact Hebus | ]].
    intros m Hm. each_mode Hm; cells; rewrite !Hbase; lra.
  - injection HA as HA. injection HB as HB. subst A' B'.
    split; [exact Hbus | split; [exact Hebus | exact Hpriv]].
Qed.

Lemma bus_electric_order (n : numbers.t) (A B : DataFrame) (y : Q) :
  numbers.bus_lifespan n == 15 -> y <= 2030 ->
  ridership_order A B ->
  ridership_order (bus_electric n A y) (bus_electric n B y).
Proof.
  intros Hlife Hy (Hbase & Hbus & Hebus & Hpriv).
  split.
  { intros m. rewrite (bus_electric_fixed n A y pkt_2030_baseline m eq_refl).
    rewrite (bus_electric_fixed n B y pkt_2030_baseline m eq_refl). apply Hbase. }
  destruct (Qgtb y 2019) eqn:Ey.
  - apply Qgtb_true in Ey.
    destruct (bus_electric_cells n A y pkt_2030_scenario (or_introl eq_refl) Ey) as [HdA HeA].
    destruct (bus_electric_cells n B y pkt_2030_scenario (or_introl eq_refl) Ey) as [HdB HeB].
    cbv zeta in HdA, HeA, HdB, HeB.
    assert (Hk0 : 0 <= (2030 - y) / numbers.bus_lifespan n)
      by (rewrite Hlife; apply Qle_shift_div_l; [reflexivity | lra]).
    assert (Hk1 : 0 <= 1 - (2030 - y) / numbers.bus_lifespan n).
    { assert ((2030 - y) / numbers.bus_lifespan n <= 1)
        by (rewrite Hlife; apply Qle_shift_div_r; [reflexivity | lra]).
      lra. }
    assert (P1 := Qmult_le_r_nonneg _ _ _ Hbus Hk0).
    assert (P2 := Qmult_le_r_nonneg _ _ _ Hbus Hk1).
    split; [rewrite HdA, HdB; lra | split; [rewrite HeA, HeB; lra | ]].
    intros m Hm. unfold bus_electric. apply Qgtb_true in Ey. rewrite Ey.
    specialize (Hpriv m Hm). each_mode Hm; exact Hpriv.
  - unfold bus_electric. rewrite Ey.
    split; [exact Hbus | split; [exact Hebus | exact Hpriv]].
Qed.

Lemma car_electric_order (A B : DataFrame) (f : Q) :
  f <= 1 ->
  ridership_order A B ->
  ridership_order (car_electric A f) (car_electric B f).
Proof.
  intros Hf (Hbase & Hbus & Hebus & Hpriv).
  split.
  { intros m. rewrite (car_electric_fixed A f pkt_2030_baseline m eq_refl).
    rewrite (car_electric_fixed B f pkt_2030_baseline m eq_refl). apply Hbase. }
  destruct (Qgtb f 0) eqn:Ef.
  - apply Qgtb_true in Ef.
    destruct (car_electric_cells A f pkt_2030_scenario (or_introl eq_refl) Ef) as [HpA HeA].
    destruct (car_electric_cells B f pkt_2030_scenario (or_introl eq_refl) Ef) as [HpB HeB].
    assert (H1 := Hpriv passenger_light (or_introl eq_refl)).
    assert (H2 := Hpriv electric_light (or_intror (or_introl eq_refl))).
    assert (Hf0 : 0 <= f) by lra.
    assert (Hf1 : 0 <= 1 - f) by lra.
    assert (P1 := Qmult_le_r_nonneg _ _ _ H1 Hf0).
    assert (P2 := Qmult_le_r_nonneg _ _ _ H1 Hf1).
    split; [ | split].
    + unfold car_electric. apply Qgtb_true in Ef. rewrite Ef. exact Hbus.
    + unfold car_electric. apply Qgtb_true in Ef. rewrite Ef. exact Hebus.
    + intros m Hm. each_mode Hm.
      * rewrite HpA, HpB. lra.
      * rewrite HeA, HeB. lra.
      * unfold car_electric. apply Qgtb_true in Ef. rewrite Ef.
        exact (Hpriv walking (or_intror (or_intror (or_introl eq_refl)))).
      * unfold car_electric. apply Qgtb_true in Ef. rewrite Ef.
        exact (Hpriv cycling (or_intror (or_intror (or_intror (or_introl eq_refl))))).
  - unfold car_electric. rewrite Ef.
    split; [exact Hbus | split; [exact Hebus | exact Hpriv]].
Qed.

Lemma covid_trips_order (n : numbers.t) (A B : DataFrame) (p : Q) :
  p <= 100 ->
  ridership_order A B ->
  ridership_order (covid_trips A p n) (covid_trips B p n).
Proof.
  intros Hp (Hbase & Hbus & Hebus & Hpriv).
  split.
  { intros m. rewrite (covid_trips_fixed n A p pkt_2030_baseline m eq_refl).
    rewrite (covid_trips_fixed n B p pkt_2030_baseline m eq_refl). apply Hbase. }
  assert (Hk : 0 <= 1 - p / 100).
  { assert (p / 100 <= 1) by (apply Qle_shift_div_r; [reflexivity | lra]). lra. }
  unfold pkt_order. rewrite !covid_trips_pkt.
  split; [ | split].
  - rewrite !(Qmult_comm (1 - p / 100)). apply Qmult_le_r_nonneg; assumption.
  - rewrite !(Qmult_comm (1 - p / 100)). apply Qmult_le_r_nonneg; assumption.
  - intros m Hm. rewrite !covid_trips_pkt.
    rewrite !(Qmult_comm (1 - p / 100)). apply Qmult_le_r_nonneg; [apply Hpriv, Hm | assumption].
Qed.

Lemma last_stages_order (A B : DataFrame) (o e : Q) (ef : Factors) :
  ridership_order A B ->
  ridership_order (calculate_emissions (car_occupancy A o) ef e)
                  (calculate_emissions (car_occupancy B o) ef e).
Proof.
  intros (Hbase & Hbus & Hebus & Hpriv).
  assert (Hsame : forall D r m, In r [pkt_2030_baseline; pkt_2030_scenario] ->
            calculate_emissions (car_occupancy D o) ef e r m = D r m).
  { intros D r m Hr. unfold car_occupancy.
    destruct (Qgtb o 0); each_mode Hr; destruct m; reflexivity. }
  unfold ridership_order, pkt_order, loc.
  split.
  - intros m. rewrite !Hsame by (simpl; tauto). apply Hbase.
  - rewrite !Hsame by (simpl; tauto).
    split; [exact Hbus | split; [exact Hebus | ]].
    intros m Hm. rewrite !Hsame by (simpl; tauto). apply Hpriv, Hm.
Qed.

(** C9.  Let the baseline pkt values be non-negative, the divisor
    [mode_sum_pkt] positive and [r1 <= r2].  The bus-ridership stage run with
    [r2] leaves no less scenario pkt on diesel_bus and on electric_bus, and
    no more on any private mode, than the stage run with [r1].  The same
    holds between the tables the whole pipeline returns for two lever
    settings that differ in the bus-ridership lever only, when the other
    levers are in range: electrification start year at most 2030 (with the
    bus lifespan of 15 years), car-electrification percentage between 0 and
    100, trip-reduction percentage at most 100.  The two runs return or
    raise together. *)
Theorem bus_ridership_monotone (g : Globals) (L : Levers) (D : DataFrame) (r1 r2 : Q) :
  (forall m, 0 <= loc D pkt_2030_baseline m) ->
  0 < numbers.mode_sum_pkt (the_numbers g) ->
  r1 <= r2 ->
  pkt_order (bus_ridership_changes (the_numbers g) D r1)
            (bus_ridership_changes (the_numbers g) D r2)
  /\ (numbers.bus_lifespan (the_numbers g) == 15 ->
      bus_electrification_included L <= 2030 ->
      0 <= car_electrification_included L <= 100 ->
      covid L <= 100 ->
      match scenario g (with_bus_prop_increase L r1) D,
            scenario g (with_bus_prop_increase L r2) D with
      | Some A, Some B => pkt_order A B
      | None, None => True
      | _, _ => False
      end).
Proof.
  intros Hbase Hsum Hr.
  split; [apply bus_ridership_stage_order; assumption | ].
  intros Hlife Hy [Hf0 Hf100] Hp.
  unfold scenario.
  cbn [with_bus_prop_increase pt_included bus_prop_increase cycling_included
       bus_electrification_included car_electrification_included covid
       car_emission_change occupancy_included].
  destruct (pt_projects_apply D (pt_effects_vkt g) (pt_effects_pkt g) (pt_included L))
    as [D1|] eqn:H1; cbn [bind]; [ | exact I].
  assert (Hbase1 : forall m, 0 <= loc D1 pkt_2030_baseline m).
  { intros m. unfold loc.
    rewrite (pt_projects_apply_fixed D D1 _ _ _ H1 pkt_2030_baseline m eq_refl).
    apply Hbase. }
  assert (H2 := bus_ridership_stage_order (the_numbers g) D1 r1 r2 Hbase1 Hsum Hr).
  destruct (cycling_changes_returns (the_numbers g)
              (bus_ridership_changes (the_numbers g) D1 r1) (cycling_included L))
    as (A3 & HA3).
  destruct (cycling_changes_returns (the_numbers g)
              (bus_ridership_changes (the_numbers g) D1 r2) (cycling_included L))
    as (B3 & HB3).
  rewrite HA3, HB3. cbn [bind].
  assert (H3 := cycling_changes_order (the_numbers g) _ _ A3 B3 _ H2 HA3 HB3).
  apply last_stages_order, covid_trips_order; [exact Hp | ].
  apply car_electric_order.
  { apply Qle_shift_div_r; [reflexivity | lra]. }
  apply bus_electric_order; assumption.
Qed.

Lemma bus_ridership_monotone_witness :
  match scenario sample_globals (with_bus_prop_increase sample_levers 0.4) sample_master,
        scenario sample_globals (with_bus_prop_increase sample_levers 0.8) sample_master with
  | Some A, Some B =>
      loc A pkt_2030_scenario electric_bus <= loc B pkt_2030_scenario electric_bus
      /\ loc B pkt_2030_scenario walking <= loc A pkt_2030_scenario walking
  | _, _ => False
  end.
Proof.
  destruct (bus_ridership_monotone sample_globals sample_levers sample_master 0.4 0.8)
    as (_ & Hrun).
  - intros m. destruct m; vm_compute; discriminate.
  - reflexivity.
  - vm_compute. discriminate.
  - specialize (Hrun (eq_refl : numbers.bus_lifespan (the_numbers sample_globals) == 15)).
    assert (Hy : bus_electrification_included sample_levers <= 2030)
      by (vm_compute; discriminate).
    assert (Hf : 0 <= car_electrification_included sample_levers <= 100)
      by (split; vm_compute; discriminate).
    assert (Hp : covid sample_levers <= 100) by (vm_compute; discriminate).
    specialize (Hrun Hy Hf Hp).
    assert (HA : exists A, scenario sample_globals
                             (with_bus_prop_increase sample_levers 0.4) sample_master = Some A)
      by (apply scenario_returns; eexists; reflexivity).
    assert (HB : exists B, scenario sample_globals
                             (with_bus_prop_increase sample_levers 0.8) sample_master = Some B)
      by (apply scenario_returns; eexists; reflexivity).
    destruct HA as (A & HA), HB as (B & HB). rewrite HA, HB in Hrun |- *.
    destruct Hrun as (_ & He & Hp').
    split; [exact He | apply Hp'; simpl; tauto].
Defined.

(** * Further properties of the code *)

(** ** Derived constants *)

(** X1.  The private total counts cycling once more than the total without
    cycling, and the derived constants read the baseline pkt row only: the
    table a run of the pipeline returns has the derived constants of the
    table it started from. *)
Theorem data_initialisation_stable (g : Globals) (L : Levers) (D D' : DataFrame) :
  scenario g L D = Some D' ->
  data_initialisation D' = data_initialisation D
  /\ numbers.mode_sum_pkt (data_initialisation D)
     == numbers.mode_pkt_no_bike (data_initialisation D)
        + loc D pkt_2030_baseline cycling.
Proof.
  intros H. apply scenario_fixed in H. split.
  - unfold data_initialisation. simpl. unfold loc.
    rewrite !(H pkt_2030_baseline _ eq_refl). reflexivity.
  - destruct (data_initialisation_sums D) as (Hs & Hn & _). rewrite Hs, Hn. ring.
Qed.

Lemma data_initialisation_stable_witness :
  exists D',
    scenario sample_globals sample_levers sample_master = Some D'
    /\ numbers.mode_pkt_no_bike (data_initialisation D') == 1938.
Proof.
  assert (H : exists D', scenario sample_globals sample_levers sample_master = Some D')
    by (apply scenario_returns; eexists; reflexivity).
  destruct H as (D' & H). exists D'. split; [exact H | ].
  destruct (data_initialisation_stable sample_globals sample_levers sample_master D' H)
    as (Heq & _).
  rewrite Heq. reflexivity.
Defined.

(** The shares of the private modes in their total add up to 1. *)
Lemma shares_cancel4 (b1 b2 b3 b4 s c : Q) :
  s == 0 + b1 + b2 + b3 + b4 -> ~ s == 0 ->
  - b1 / s * c + - b2 / s * c + - b3 / s * c + - b4 / s * c == - c.
Proof.
  intros Hs Hne.
  setoid_replace (- b1 / s * c + - b2 / s * c + - b3 / s * c + - b4 / s * c)
    with (- ((0 + b1 + b2 + b3 + b4) / s) * c) by (unfold Qdiv; ring).
  rewrite <- Hs. field. exact Hne.
Qed.

Lemma shares_cancel3 (b1 b2 b3 s c : Q) :
  s == 0 + b1 + b2 + b3 -> ~ s == 0 ->
  - b1 / s * c + - b2 / s * c + - b3 / s * c == - c.
Proof.
  intros Hs Hne.
  setoid_replace (- b1 / s * c + - b2 / s * c + - b3 / s * c)
    with (- ((0 + b1 + b2 + b3) / s) * c) by (unfold Qdiv; ring).
  rewrite <- Hs. field. exact Hne.
Qed.

(** ** The project effect table *)

(** X2.  Whatever the primary mode of a project, a transit mode or not, the
    loop over the project writes every cell of its two rows: no NaN is left
    in the effect tables. *)
Theorem project_effects_filled (n : numbers.t) (base : DataFrame) (p : Project) (m : Mode) :
  (exists v, fst (project_effects n base p) m = Some v)
  /\ exists w, snd (project_effects n base p) m = Some w.
Proof.
  destruct p as [pm pf opf cap dist nph nh].
  destruct pm, m; split; eexists; reflexivity.
Qed.

Lemma project_pkt_effects_cancel_general (n : numbers.t) (base : DataFrame) (p : Project) :
  numbers.mode_sum_pkt n
  = 0 + loc base pkt_2030_baseline passenger_light
      + loc base pkt_2030_baseline electric_light
      + loc base pkt_2030_baseline walking
      + loc base pkt_2030_baseline cycling ->
  ~ numbers.mode_sum_pkt n == 0 ->
  In (primary_mode p) pt_modes ->
  row_sum (fun m => skipna (snd (project_effects n base p) m)) == 0.
Proof.
  intros Hs Hsum Hpt.
  assert (Hrow : forall m,
            snd (project_effects n base p) m
            = if mode_in m ["passenger_light"; "electric_light"; "walking"; "cycling"]
              then Some (private_pkt_effect n base p m)
              else if Mode_eqb m (primary_mode p) then Some (primary_pkt n p)
              else Some 0).
  { intros m. destruct p as [pm pf opf cap dist nph nh]. simpl in *.
    each_mode Hpt; destruct m; reflexivity. }
  unfold row_sum. cbn [fold_left all_modes]. rewrite !Hrow.
  unfold private_pkt_effect.
  assert (Hpriv := shares_cancel4
                     (loc base pkt_2030_baseline passenger_light)
                     (loc base pkt_2030_baseline electric_light)
                     (loc base pkt_2030_baseline walking)
                     (loc base pkt_2030_baseline cycling)
                     (numbers.mode_sum_pkt n) (primary_pkt n p)).
  rewrite Hs in Hpriv at 1. specialize (Hpriv (Qeq_refl _) Hsum).
  destruct p as [pm pf opf cap dist nph nh]. simpl in Hpt.
  each_mode Hpt; cbn [mode_in existsb mode_name String.eqb Ascii.eqb Bool.eqb orb
                      Mode_eqb primary_mode skipna];
    lra.
Qed.

(** X3.  For a project with a transit primary mode, computed with the derived
    constants of the same table and a private total that is not 0, the pkt
    effects of the project over all modes sum to 0: what the primary mode
    gains is what the private modes lose. *)
Theorem project_pkt_effects_cancel (base : DataFrame) (p : Project) :
  let n := data_initialisation base in
  In (primary_mode p) pt_modes ->
  ~ numbers.mode_sum_pkt n == 0 ->
  row_sum (fun m => skipna (snd (project_effects n base p) m)) == 0.
Proof.
  intros n Hpt Hsum.
  apply project_pkt_effects_cancel_general; [ | exact Hsum | exact Hpt].
  apply data_initialisation_sums.
Qed.

Lemma project_pkt_effects_cancel_witness :
  row_sum (fun m => skipna (snd (project_effects (data_initialisation sample_base)
                                   sample_base sample_rail) m)) == 0.
Proof.
  apply project_pkt_effects_cancel.
  - simpl. tauto.
  - vm_compute. discriminate.
Defined.

(** X4.  For a project whose primary mode is a private mode, the cell of the
    primary mode does not keep the pkt the project carries: the loop over
    the private modes overwrites it with the draw-down of that mode, and
    every transit cell of both rows is 0. *)
Theorem project_private_primary (n : numbers.t) (base : DataFrame) (p : Project) :
  In (primary_mode p) private_modes ->
  snd (project_effects n base p) (primary_mode p)
  = Some (private_pkt_effect n base p (primary_mode p))
  /\ forall m, In m pt_modes ->
       fst (project_effects n base p) m = Some 0
       /\ snd (project_effects n base p) m = Some 0.
Proof.
  intros Hpriv. destruct p as [pm pf opf cap dist nph nh]. simpl in *.
  split.
  - each_mode Hpriv; reflexivity.
  - intros m Hm. each_mode Hpriv; each_mode Hm; split; reflexivity.
Qed.

Lemma project_private_primary_witness :
  snd (project_effects sample_numbers sample_base cycleway) cycling
  = Some (private_pkt_effect sample_numbers sample_base cycleway cycling)
  /\ snd (project_effects sample_numbers sample_base cycleway) light_rail = Some 0.
Proof.
  destruct (project_private_primary sample_numbers sample_base cycleway) as (Hown & Hpt).
  - simpl. tauto.
  - split; [exact Hown | apply Hpt; simpl; tauto].
Defined.

(** ** Selection of projects *)

Lemma table_loc_list_none (t : EffectTable) (labels : list string) :
  table_loc_list t labels = None <-> exists l, In l labels /\ table_loc t l = None.
Proof.
  induction labels as [|l ls IH]; simpl.
  - split; [discriminate | intros (l & [] & _)].
  - destruct (table_loc t l) as [r|] eqn:El.
    + destruct (table_loc_list t ls) as [rs|].
      * split; [discriminate | ].
        intros (l' & [Hl' | Hl'] & Hnone).
        -- subst l'. congruence.
        -- assert (Hno : @None (list EffectRow) = None) by reflexivity.
           destruct IH as [_ IH]. discriminate IH. exists l'. auto.
      * split; [ | reflexivity].
        intros _. destruct IH as [IH _]. destruct (IH eq_refl) as (l' & Hl' & Hnone).
        exists l'. auto.
    + split; [ | reflexivity]. intros _. exists l. auto.
Qed.

Lemma pt_projects_apply_none (D : DataFrame) (tv tp : EffectTable)
    (included : list string) :
  pt_projects_apply D tv tp included = None
  <-> included <> []
      /\ exists l, In l included /\ (table_loc tv l = None \/ table_loc tp l = None).
Proof.
  unfold pt_projects_apply. destruct included as [|l0 ls].
  - split; [discriminate | intros (H & _); congruence].
  - destruct (table_loc_list tv (l0 :: ls)) as [rv|] eqn:Ev.
    + destruct (table_loc_list tp (l0 :: ls)) as [rp|] eqn:Ep.
      * split; [discriminate | ].
        intros (_ & l & Hl & [Hnone | Hnone]).
        -- assert (H : table_loc_list tv (l0 :: ls) = None)
             by (apply table_loc_list_none; exists l; auto).
           congruence.
        -- assert (H : table_loc_list tp (l0 :: ls) = None)
             by (apply table_loc_list_none; exists l; auto).
           congruence.
      * split; [ | reflexivity]. intros _. split; [discriminate | ].
        apply table_loc_list_none in Ep. destruct Ep as (l & Hl & Hnone).
        exists l. auto.
    + split; [ | reflexivity]. intros _. split; [discriminate | ].
      apply table_loc_list_none in Ev. destruct Ev as (l & Hl & Hnone).
      exists l. auto.
Qed.

(** X5.  [pt_projects_apply] raises exactly when the selection is not empty
    and one of its labels is missing from the index of one of the two effect
    tables; an empty selection returns the table as it is, whatever the
    tables hold. *)
Theorem pt_projects_apply_raises (D : DataFrame) (tv tp : EffectTable)
    (included : list string) :
  (pt_projects_apply D tv tp included = None
   <-> included <> []
       /\ exists l, In l included /\ (table_loc tv l = None \/ table_loc tp l = None))
  /\ pt_projects_apply D tv tp [] = Some D.
Proof.
  split; [apply pt_projects_apply_none | reflexivity].
Qed.

Lemma table_loc_list_app (t : EffectTable) (l1 l2 : list string) :
  table_loc_list t (l1 ++ l2)%list
  = match table_loc_list t l1, table_loc_list t l2 with
    | Some r1, Some r2 => Some (r1 ++ r2)%list
    | _, _ => None
    end.
Proof.
  induction l1 as [|l ls IH]; simpl.
  - destruct (table_loc_list t l2); reflexivity.
  - rewrite IH. destruct (table_loc t l); [ | reflexivity].
    destruct (table_loc_list t ls); [ | reflexivity].
    destruct (table_loc_list t l2); reflexivity.
Qed.

Lemma column_sum_app (r1 r2 : list EffectRow) (m : Mode) :
  column_sum (r1 ++ r2)%list m == column_sum r1 m + column_sum r2 m.
Proof.
  induction r1 as [|r rs IH].
  - simpl. unfold column_sum at 2. simpl. ring.
  - change ((r :: rs) ++ r2)%list with (r :: (rs ++ r2))%list.
    rewrite !column_sum_cons, IH. ring.
Qed.

Lemma pt_projects_apply_cells (D D' : DataFrame) (tv tp : EffectTable)
    (included : list string) (rv rp : list EffectRow) :
  table_loc_list tv included = Some rv ->
  table_loc_list tp included = Some rp ->
  pt_projects_apply D tv tp included = Some D' ->
  forall r m,
    D' r m == match r with
              | vkt_2030_scenario => D r m + column_sum rv m
              | pkt_2030_scenario => D r m + column_sum rp m
              | _ => D r m
              end.
Proof.
  intros Hv Hp. unfold pt_projects_apply. destruct included as [|l ls].
  - simpl in Hv, Hp. injection Hv as Hv. injection Hp as Hp. subst rv rp.
    intros H. injection H as H. subst D'.
    intros r m. destruct r; unfold column_sum; simpl; ring.
  - rewrite Hv, Hp. intros H. injection H as H. subst D'.
    intros r m. destruct r; reflexivity.
Qed.

Lemma pt_projects_apply_some (D D' : DataFrame) (tv tp : EffectTable)
    (included : list string) :
  pt_projects_apply D tv tp included = Some D' ->
  exists rv rp,
    table_loc_list tv included = Some rv /\ table_loc_list tp included = Some rp.
Proof.
  unfold pt_projects_apply. destruct included as [|l ls].
  - intros _. exists [], []. split; reflexivity.
  - destruct (table_loc_list tv (l :: ls)) as [rv|]; [ | discriminate].
    destruct (table_loc_list tp (l :: ls)) as [rp|]; [ | discriminate].
    intros _. exists rv, rp. split; reflexivity.
Qed.

Lemma pt_projects_apply_found (D : DataFrame) (tv tp : EffectTable)
    (included : list string) (rv rp : list EffectRow) :
  table_loc_list tv included = Some rv ->
  table_loc_list tp included = Some rp ->
  exists D', pt_projects_apply D tv tp included = Some D'.
Proof.
  intros Hv Hp. unfold pt_projects_apply. rewrite Hv, Hp.
  destruct included; eexists; reflexivity.
Qed.

(** X6.  Selecting the labels of two lists at once gives, cell by cell, the
    table that selecting the first list and then the second gives, and the
    two raise together: the effects of projects add up, and a label listed
    twice counts twice. *)
Theorem pt_projects_apply_app (D : DataFrame) (tv tp : EffectTable)
    (l1 l2 : list string) :
  same_result
    (pt_projects_apply D tv tp (l1 ++ l2)%list)
    (bind (pt_projects_apply D tv tp l1) (fun D1 => pt_projects_apply D1 tv tp l2)).
Proof.
  assert (Hv := table_loc_list_app tv l1 l2).
  assert (Hp := table_loc_list_app tp l1 l2).
  destruct (pt_projects_apply D tv tp (l1 ++ l2)%list) as [A|] eqn:EA.
  - destruct (pt_projects_apply_some _ _ _ _ _ EA) as (rv & rp & Hrv & Hrp).
    rewrite Hrv in Hv. rewrite Hrp in Hp.
    destruct (table_loc_list tv l1) as [v1|] eqn:Ev1; [ | discriminate].
    destruct (table_loc_list tv l2) as [v2|] eqn:Ev2; [ | discriminate].
    destruct (table_loc_list tp l1) as [p1|] eqn:Ep1; [ | discriminate].
    destruct (table_loc_list tp l2) as [p2|] eqn:Ep2; [ | discriminate].
    injection Hv as Hv. injection Hp as Hp. subst rv rp.
    destruct (pt_projects_apply_found D tv tp l1 v1 p1 Ev1 Ep1) as (D1 & E1).
    destruct (pt_projects_apply_found D1 tv tp l2 v2 p2 Ev2 Ep2) as (B & E2).
    rewrite E1. cbn [bind]. rewrite E2. intros r m.
    rewrite (pt_projects_apply_cells D A tv tp _ _ _ Hrv Hrp EA r m).
    rewrite (pt_projects_apply_cells D1 B tv tp _ _ _ Ev2 Ep2 E2 r m).
    destruct r; rewrite (pt_projects_apply_cells D D1 tv tp _ _ _ Ev1 Ep1 E1);
      rewrite ?column_sum_app; ring.
  - destruct (pt_projects_apply D tv tp l1) as [D1|] eqn:E1; cbn [bind]; [ | exact I].
    destruct (pt_projects_apply D1 tv tp l2) as [B|] eqn:E2; [ | exact I].
    destruct (pt_projects_apply_some _ _ _ _ _ E1) as (v1 & p1 & Ev1 & Ep1).
    destruct (pt_projects_apply_some _ _ _ _ _ E2) as (v2 & p2 & Ev2 & Ep2).
    rewrite Ev1, Ev2 in Hv. rewrite Ep1, Ep2 in Hp.
    destruct (pt_projects_apply_found D tv tp _ _ _ Hv Hp) as (A & EA').
    congruence.
Qed.

Lemma table_loc_unknown (n : numbers.t) (base : DataFrame) (pt_details : Details)
    (l : string) :
  table_loc (fst (pt_proj_effects n base pt_details)) l = None
  \/ table_loc (snd (pt_proj_effects n base pt_details)) l = None
  <-> ~ In l (map fst pt_details).
Proof.
  unfold pt_proj_effects. cbn [fst snd].
  induction pt_details as [|[l0 p0] rest IH]; simpl.
  - tauto.
  - destruct (String.eqb l0 l) eqn:E.
    + apply String.eqb_eq in E. split; [intros [H | H]; discriminate | tauto].
    + apply String.eqb_neq in E. rewrite IH. tauto.
Qed.

Lemma scenario_known_labels (pt_details : Details) (raw : DataFrame)
    (ef : Factors) (L : Levers) :
  (exists D',
     scenario (snd (initialisation pt_details raw ef)) L
       (fst (initialisation pt_details raw ef)) = Some D')
  <-> forall l, In l (pt_included L) -> In l (map fst pt_details).
Proof.
  rewrite <- scenario_returns.
  set (master := fst (initialisation pt_details raw ef)).
  change (pt_effects_vkt (snd (initialisation pt_details raw ef)))
    with (fst (pt_proj_effects (data_initialisation master) master pt_details)).
  change (pt_effects_pkt (snd (initialisation pt_details raw ef)))
    with (snd (pt_proj_effects (data_initialisation master) master pt_details)).
  set (n := data_initialisation master).
  assert (Hknown := table_loc_unknown n master pt_details).
  split.
  - intros (D1 & H1) l Hl.
    destruct (in_dec string_dec l (map fst pt_details)) as [Hin | Hout]; [exact Hin | ].
    exfalso.
    assert (Hnone : pt_projects_apply master (fst (pt_proj_effects n master pt_details))
                      (snd (pt_proj_effects n master pt_details)) (pt_included L) = None).
    { apply pt_projects_apply_none. split.
      - intros Hnil. rewrite Hnil in Hl. contradiction.
      - exists l. split; [exact Hl | apply Hknown, Hout]. }
    congruence.
  - intros Hall.
    destruct (pt_projects_apply master (fst (pt_proj_effects n master pt_details))
                (snd (pt_proj_effects n master pt_details)) (pt_included L))
      as [D1|] eqn:E1; [exists D1; reflexivity | ].
    exfalso. apply pt_projects_apply_none in E1.
    destruct E1 as (_ & l & Hl & Hnone). apply Hknown in Hnone.
    apply Hnone, Hall, Hl.
Qed.

(** X7.  With the tables and constants the module computes at start-up, the
    pipeline returns a table exactly when every selected label is a label of
    [pt_details]; no lever value makes a stage after the first raise. *)
Theorem scenario_returns_iff_known (pt_details : Details) (raw : DataFrame)
    (ef : Factors) (L : Levers) :
  (exists D',
     scenario (snd (initialisation pt_details raw ef)) L
       (fst (initialisation pt_details raw ef)) = Some D')
  <-> forall l, In l (pt_included L) -> In l (map fst pt_details).
Proof. apply scenario_known_labels. Qed.

Lemma scenario_returns_iff_known_witness :
  (exists D', scenario sample_globals sample_levers sample_master = Some D')
  /\ scenario sample_globals (unknown_project sample_levers) sample_master = None.
Proof.
  split.
  - apply (scenario_returns_iff_known sample_details sample_base sample_factors
             sample_levers).
    intros l Hl. simpl in Hl |- *. tauto.
  - destruct (scenario sample_globals (unknown_project sample_levers) sample_master)
      as [D'|] eqn:E; [ | reflexivity].
    exfalso.
    assert (H : In "Tunnel" (map fst sample_details)).
    { apply (scenario_returns_iff_known sample_details sample_base sample_factors
               (unknown_project sample_levers)).
      - exists D'. exact E.
      - simpl. tauto. }
    simpl in H. destruct H as [H | [H | []]]; discriminate H.
Defined.

(** ** Totals over the modes *)

Lemma bus_ridership_total_general (n : numbers.t) (D : DataFrame) (r : Q) :
  numbers.mode_sum_pkt n
  = 0 + loc D pkt_2030_baseline passenger_light
      + loc D pkt_2030_baseline electric_light
      + loc D pkt_2030_baseline walking
      + loc D pkt_2030_baseline cycling ->
  ~ numbers.mode_sum_pkt n == 0 ->
  row_sum (bus_ridership_changes n D r pkt_2030_scenario)
  == row_sum (D pkt_2030_scenario).
Proof.
  intros Hs Hne.
  assert (H := shares_cancel4
                 (loc D pkt_2030_baseline passenger_light)
                 (loc D pkt_2030_baseline electric_light)
                 (loc D pkt_2030_baseline walking)
                 (loc D pkt_2030_baseline cycling)
                 (numbers.mode_sum_pkt n) (loc D pkt_2030_baseline diesel_bus * r)).
  rewrite Hs in H at 1. specialize (H (Qeq_refl _) Hne).
  unfold bus_ridership_changes. destruct (Qgtb r 0); [ | reflexivity].
  unfold loc in H. cells. lra.
Qed.

(** X8.  With the derived constants of the table itself and a private total
    that is not 0, the bus-ridership stage leaves the sum of the scenario pkt
    over all modes as it was, for every value of the lever: the pkt it puts
    on diesel buses is the pkt it takes from the private modes. *)
Theorem bus_ridership_changes_total (D : DataFrame) (r : Q) :
  let n := data_initialisation D in
  ~ numbers.mode_sum_pkt n == 0 ->
  row_sum (bus_ridership_changes n D r pkt_2030_scenario)
  == row_sum (D pkt_2030_scenario).
Proof.
  intros n Hne. apply bus_ridership_total_general; [ | exact Hne].
  apply data_initialisation_sums.
Qed.

Lemma bus_ridership_changes_total_witness :
  row_sum (bus_ridership_changes (data_initialisation sample_base) sample_base 0.4
             pkt_2030_scenario)
  == row_sum (sample_base pkt_2030_scenario).
Proof.
  apply bus_ridership_changes_total. vm_compute. discriminate.
Defined.

Lemma cycling_total_general (n : numbers.t) (D : DataFrame) (c : Q) :
  numbers.mode_pkt_no_bike n
  = 0 + loc D pkt_2030_baseline passenger_light
      + loc D pkt_2030_baseline electric_light
      + loc D pkt_2030_baseline walking ->
  ~ numbers.mode_pkt_no_bike n == 0 ->
  match cycling_changes n D c with
  | Some D' => row_sum (D' pkt_2030_scenario) == row_sum (D pkt_2030_scenario)
  | None => False
  end.
Proof.
  intros Hs Hne.
  assert (H := shares_cancel3
                 (loc D pkt_2030_baseline passenger_light)
                 (loc D pkt_2030_baseline electric_light)
                 (loc D pkt_2030_baseline walking)
                 (numbers.mode_pkt_no_bike n) (loc D pkt_2030_baseline cycling * (c - 1))).
  rewrite Hs in H at 1. specialize (H (Qeq_refl _) Hne).
  unfold cycling_changes. destruct (Qgtb c 0); [ | reflexivity].
  unfold loc in H.
  cbn [fold_left private_modes option_map cycling_step]. cells. lra.
Qed.

Lemma cycling_changes_at_one (n : numbers.t) (D : DataFrame) (c : Q) :
  c == 1 ->
  match cycling_changes n D c with
  | Some D' => forall r m, D' r m == D r m
  | None => False
  end.
Proof.
  intros Hc. unfold cycling_changes. destruct (Qgtb c 0).
  - cbn [fold_left private_modes option_map cycling_step].
    assert (Hzero : D pkt_2030_baseline cycling * (c - 1) == 0) by (rewrite Hc; ring).
    intros r m. destruct r, m; cells; rewrite ?Hzero; unfold Qdiv; ring.
  - intros r m. reflexivity.
Qed.

(** X9.  With the derived constants of the table itself and a total without
    cycling that is not 0, the cycling stage leaves the sum of the scenario
    pkt over all modes as it was; and at a lever value of 1, which by the
    convention of the lever stands for the baseline share, it changes no
    cell. *)
Theorem cycling_changes_total (D : DataFrame) (c : Q) :
  let n := data_initialisation D in
  ~ numbers.mode_pkt_no_bike n == 0 ->
  match cycling_changes n D c with
  | Some D' =>
      row_sum (D' pkt_2030_scenario) == row_sum (D pkt_2030_scenario)
      /\ (c == 1 -> forall r m, D' r m == D r m)
  | None => False
  end.
Proof.
  intros n Hne.
  assert (Htotal := cycling_total_general n D c
                      (proj1 (proj2 (data_initialisation_sums D))) Hne).
  assert (Hone := cycling_changes_at_one n D c).
  destruct (cycling_changes n D c) as [D'|]; [ | exact Htotal].
  split; [exact Htotal | exact Hone].
Qed.

Lemma cycling_changes_total_witness :
  match cycling_changes (data_initialisation sample_base) sample_base 1 with
  | Some D' => loc D' vkt_2030_scenario cycling == 62
  | None => False
  end.
Proof.
  assert (H := cycling_changes_total sample_base 1).
  cbv zeta in H.
  destruct (cycling_changes (data_initialisation sample_base) sample_base 1) as [D'|].
  - destruct H as (_ & H); [vm_compute; discriminate | ].
    rewrite (H (eq_refl : 1 == 1)). reflexivity.
  - apply H. vm_compute. discriminate.
Defined.

(** ** Electrification outside and at the ends of its range *)

(** X10.  The bus-electrification stage gates on the start year being after
    2019 only.  At 2030 it moves nothing; after 2030 the share
    [(2030 - y) / bus_lifespan] is negative, so with a positive lifespan and
    positive diesel-bus cells the stage takes pkt and vkt from electric buses
    and puts it on diesel buses. *)
Theorem bus_electric_late_year (n : numbers.t) (D : DataFrame) (y : Q) (row : Row) :
  In row [pkt_2030_scenario; vkt_2030_scenario] ->
  0 < numbers.bus_lifespan n ->
  (y == 2030 ->
   loc (bus_electric n D y) row diesel_bus == loc D row diesel_bus
   /\ loc (bus_electric n D y) row electric_bus == loc D row electric_bus)
  /\ (2030 < y -> 0 < loc D row diesel_bus ->
      loc (bus_electric n D y) row electric_bus < loc D row electric_bus
      /\ loc D row diesel_bus < loc (bus_electric n D y) row diesel_bus).
Proof.
  intros Hrow Hlife. split.
  - intros Hy.
    assert (Hgt : 2019 < y) by (rewrite Hy; reflexivity).
    destruct (bus_electric_cells n D y row Hrow Hgt) as [Hd He]. cbv zeta in Hd, He.
    assert (Hprop : (2030 - y) / numbers.bus_lifespan n == 0)
      by (rewrite Hy; unfold Qdiv; ring).
    rewrite Hd, He, Hprop. split; ring.
  - intros Hy Hpos.
    assert (Hgt : 2019 < y) by lra.
    destruct (bus_electric_cells n D y row Hrow Hgt) as [Hd He]. cbv zeta in Hd, He.
    assert (Hprop : 0 < (y - 2030) / numbers.bus_lifespan n).
    { apply Qlt_shift_div_l; [exact Hlife | lra]. }
    assert (Hmoved : 0 < loc D row diesel_bus * ((y - 2030) / numbers.bus_lifespan n))
      by (apply Qmult_lt_0_compat; assumption).
    assert (Hneg : loc D row diesel_bus * ((2030 - y) / numbers.bus_lifespan n)
                   == - (loc D row diesel_bus * ((y - 2030) / numbers.bus_lifespan n)))
      by (unfold Qdiv; ring).
    rewrite Hd, He, Hneg. split; lra.
Qed.

Lemma bus_electric_late_year_witness :
  loc (bus_electric sample_numbers sample_base 2036) pkt_2030_scenario electric_bus < 30.
Proof.
  destruct (bus_electric_late_year sample_numbers sample_base 2036 pkt_2030_scenario)
    as (_ & Hlate).
  - simpl. tauto.
  - reflexivity.
  - destruct Hlate as (He & _); [reflexivity | reflexivity | exact He].
Defined.

(** X11.  For a fraction between 0 and 1 and non-negative cells, the
    car-electrification stage leaves passenger_light between 0 and its
    former value and does not lower electric_light; at a fraction of exactly
    1 nothing is left on passenger_light. *)
Theorem car_electric_range (D : DataFrame) (f : Q) (row : Row) :
  In row [pkt_2030_scenario; vkt_2030_scenario] ->
  0 <= f <= 1 ->
  0 <= loc D row passenger_light ->
  (0 <= loc (car_electric D f) row passenger_light <= loc D row passenger_light
   /\ loc D row electric_light <= loc (car_electric D f) row electric_light)
  /\ (f == 1 -> loc (car_electric D f) row passenger_light == 0).
Proof.
  intros Hrow [Hf0 Hf1] Hpos.
  destruct (Qgtb f 0) eqn:Ef.
  - apply Qgtb_true in Ef.
    destruct (car_electric_cells D f row Hrow Ef) as [Hp He].
    assert (H1 : 0 <= loc D row passenger_light * f)
      by (apply Qmult_le_0_compat; assumption).
    assert (H2 : 0 <= loc D row passenger_light * (1 - f))
      by (apply Qmult_le_0_compat; lra).
    rewrite Hp, He. split; [split; [split | ]; lra | ].
    intros Hone. rewrite Hone. ring.
  - apply Qgtb_false in Ef. rewrite (car_electric_disabled D f Ef).
    split; [split; [split | ]; lra | ].
    intros Hone. rewrite Hone in Ef. exfalso. apply (Qlt_not_le 0 1); [reflexivity | exact Ef].
Qed.

Lemma car_electric_range_witness :
  loc (car_electric sample_base 1) vkt_2030_scenario passenger_light == 0.
Proof.
  destruct (car_electric_range sample_base 1 vkt_2030_scenario) as (_ & H).
  - simpl. tauto.
  - split; vm_compute; discriminate.
  - vm_compute. discriminate.
  - apply H. reflexivity.
Defined.

(** ** Occupancy and emissions *)

(** X12.  With a positive occupancy the stage overwrites the scenario vkt of
    the two light-vehicle modes: the result does not depend on the values
    those two cells held, the stage applied twice gives what it gives once,
    and no other cell changes. *)
Theorem car_occupancy_overrides (D : DataFrame) (o v w : Q) :
  0 < o ->
  (forall r m,
     car_occupancy
       (set_loc (set_loc D vkt_2030_scenario passenger_light v)
          vkt_2030_scenario electric_light w) o r m
     = car_occupancy D o r m)
  /\ (forall r m, car_occupancy (car_occupancy D o) o r m = car_occupancy D o r m)
  /\ (forall r m,
        ~ (r = vkt_2030_scenario /\ In m [passenger_light; electric_light]) ->
        car_occupancy D o r m = D r m).
Proof.
  intros Ho. apply Qgtb_true in Ho. unfold car_occupancy. rewrite Ho.
  split; [ | split].
  - intros r m. destruct r, m; reflexivity.
  - intros r m. destruct r, m; reflexivity.
  - intros r m Hnot. destruct r, m; try reflexivity; exfalso; apply Hnot; simpl; tauto.
Qed.

Lemma car_occupancy_overrides_witness :
  car_occupancy (set_loc (set_loc sample_base vkt_2030_scenario passenger_light 7)
                   vkt_2030_scenario electric_light 9) 2
    vkt_2030_scenario passenger_light
  = car_occupancy sample_base 2 vkt_2030_scenario passenger_light.
Proof.
  destruct (car_occupancy_overrides sample_base 2 7 9) as (H & _).
  - reflexivity.
  - apply H.
Defined.

(** X13.  The emissions stage reads the scenario vkt row and the factors
    only and writes the scenario emissions row only: applied twice it gives
    what it gives once, it changes no other row, and two tables with the same
    scenario vkt row receive the same scenario emissions row. *)
Theorem calculate_emissions_idempotent (D E : DataFrame) (ef : Factors) (e : Q) :
  (forall r m,
     calculate_emissions (calculate_emissions D ef e) ef e r m
     = calculate_emissions D ef e r m)
  /\ (forall r m, r <> emissions_2030_scenario -> calculate_emissions D ef e r m = D r m)
  /\ ((forall m, D vkt_2030_scenario m = E vkt_2030_scenario m) ->
      forall m,
        calculate_emissions D ef e emissions_2030_scenario m
        = calculate_emissions E ef e emissions_2030_scenario m).
Proof.
  split; [ | split].
  - intros r m. destruct r, m; reflexivity.
  - intros r m Hr. destruct r, m; try reflexivity; congruence.
  - intros Hvkt m. destruct m; cbv -[Qplus Qminus Qmult Qdiv Qopp Qinv];
      rewrite Hvkt; reflexivity.
Qed.

Lemma calculate_emissions_idempotent_witness :
  calculate_emissions sample_base sample_factors 0.1 emissions_2030_scenario diesel_bus
  = calculate_emissions (set_loc sample_base pkt_2030_scenario walking 5)
      sample_factors 0.1 emissions_2030_scenario diesel_bus.
Proof.
  destruct (calculate_emissions_idempotent sample_base
              (set_loc sample_base pkt_2030_scenario walking 5) sample_factors 0.1)
    as (_ & _ & H).
  apply H. intros m. destruct m; reflexivity.
Defined.

(** ** The table the pipeline returns *)

(** X14.  Whenever the occupancy control is positive, as every position of
    the slider is, the table the pipeline returns has, for both
    light-vehicle modes, a scenario vkt equal to the scenario pkt divided by
    the chosen occupancy; whatever earlier stages did to those two vkt cells,
    the trip-reduction stage passing over passenger_light included, is
    overwritten. *)
Theorem scenario_light_vkt (g : Globals) (L : Levers) (D D' : DataFrame) (m : Mode) :
  scenario g L D = Some D' ->
  0 < occupancy_included L ->
  In m [passenger_light; electric_light] ->
  loc D' vkt_2030_scenario m
  = loc D' pkt_2030_scenario m / (occupancy_included L / 100).
Proof.
  intros H Hocc Hm. apply scenario_stages in H. destruct H as (D1 & D3 & _ & _ & HD').
  subst D'.
  assert (Hgt : Qgtb (occupancy_included L / 100) 0 = true).
  { apply Qgtb_true. apply Qlt_shift_div_l; [reflexivity | lra]. }
  set (X := covid_trips _ _ _). clearbody X.
  unfold car_occupancy. rewrite Hgt. each_mode Hm; reflexivity.
Qed.

Lemma scenario_light_vkt_witness :
  exists D',
    scenario sample_globals sample_levers sample_master = Some D'
    /\ loc D' vkt_2030_scenario passenger_light
       = loc D' pkt_2030_scenario passenger_light / (170 / 100).
Proof.
  assert (H : exists D', scenario sample_globals sample_levers sample_master = Some D')
    by (apply scenario_returns; eexists; reflexivity).
  destruct H as (D' & H). exists D'. split; [exact H | ].
  apply (scenario_light_vkt sample_globals sample_levers sample_master D' passenger_light H).
  - reflexivity.
  - simpl. tauto.
Defined.

(** X15.  In the table the pipeline returns the scenario emissions of every
    mode but passenger_light are the 2030-scenario factor times the scenario
    vkt of that table, and those of passenger_light are that product times
    [1 - car_emission_change]: the emissions row is consistent with the vkt
    row that is returned with it. *)
Theorem scenario_emissions_consistent (g : Globals) (L : Levers) (D D' : DataFrame) :
  scenario g L D = Some D' ->
  loc D' emissions_2030_scenario passenger_light
  = emission_factors g values_2030_scenario passenger_light
    * loc D' vkt_2030_scenario passenger_light * (1 - car_emission_change L)
  /\ forall m, m <> passenger_light ->
       loc D' emissions_2030_scenario m
       = emission_factors g values_2030_scenario m * loc D' vkt_2030_scenario m.
Proof.
  intros H. apply scenario_stages in H. destruct H as (D1 & D3 & _ & _ & HD').
  subst D'. set (X := car_occupancy _ _). clearbody X.
  split; [reflexivity | ].
  intros m Hm. destruct m; try reflexivity; congruence.
Qed.

Lemma scenario_emissions_consistent_witness :
  exists D',
    scenario sample_globals sample_levers sample_master = Some D'
    /\ loc D' emissions_2030_scenario heavy_rail == 0.5 * 3.
Proof.
  assert (H : exists D', scenario sample_globals sample_levers sample_master = Some D')
    by (apply scenario_returns; eexists; reflexivity).
  destruct H as (D' & H). exists D'. split; [exact H | ].
  destruct (scenario_emissions_consistent sample_globals sample_levers sample_master D' H)
    as (_ & Hm).
  rewrite (Hm heavy_rail) by discriminate.
  apply scenario_stages in H. destruct H as (D1 & D3 & H1 & H3 & HD').
  injection H1 as H1. injection H3 as H3. subst. reflexivity.
Defined.

(** X16.  The trip-reduction lever has no effect on transit vehicles: two
    runs of the pipeline that differ in that lever only return or raise
    together, and return the same scenario vkt and the same scenario
    emissions for the four transit modes. *)
Theorem covid_leaves_transit (g : Globals) (L : Levers) (D : DataFrame) (p q : Q) :
  match scenario g (with_covid L p) D, scenario g (with_covid L q) D with
  | Some A, Some B =>
      forall m, In m pt_modes ->
        loc A vkt_2030_scenario m = loc B vkt_2030_scenario m
        /\ loc A emissions_2030_scenario m = loc B emissions_2030_scenario m
  | None, None => True
  | _, _ => False
  end.
Proof.
  unfold scenario.
  cbn [with_covid pt_included bus_prop_increase cycling_included
       bus_electrification_included car_electrification_included covid
       car_emission_change occupancy_included].
  destruct (pt_projects_apply D (pt_effects_vkt g) (pt_effects_pkt g) (pt_included L))
    as [D1|]; cbn [bind]; [ | exact I].
  destruct (cycling_changes (the_numbers g)
              (bus_ridership_changes (the_numbers g) D1 (bus_prop_increase L))
              (cycling_included L)) as [D3|]; cbn [bind]; [ | exact I].
  set (X := car_electric _ _). clearbody X.
  intros m Hm. unfold car_occupancy.
  destruct (Qgtb (occupancy_included L / 100) 0); each_mode Hm; split; reflexivity.
Qed.

(** X17.  With the trip-reduction lever at 100 the table the pipeline
    returns has a scenario pkt of 0 for every mode and a scenario vkt of 0
    for walking, cycling and electric_light; the scenario vkt of
    passenger_light is 0 as well when the occupancy control is positive. *)
Theorem scenario_full_reduction (g : Globals) (L : Levers) (D D' : DataFrame) :
  scenario g L D = Some D' ->
  covid L == 100 ->
  (forall m, loc D' pkt_2030_scenario m == 0)
  /\ (forall m, In m [walking; cycling; electric_light] ->
        loc D' vkt_2030_scenario m == 0)
  /\ (0 < occupancy_included L -> loc D' vkt_2030_scenario passenger_light == 0).
Proof.
  intros H Hp. apply scenario_stages in H. destruct H as (D1 & D3 & _ & _ & HD').
  subst D'. set (X := car_electric _ _). clearbody X.
  assert (Hzero : 1 - covid L / 100 == 0) by (rewrite Hp; reflexivity).
  unfold car_occupancy.
  split; [ | split].
  - intros m. destruct (Qgtb (occupancy_included L / 100) 0);
      destruct m; cells; rewrite Hzero; ring.
  - intros m Hm. destruct (Qgtb (occupancy_included L / 100) 0);
      each_mode Hm; cells; rewrite Hzero; unfold Qdiv; ring.
  - intros Hocc.
    assert (Hgt : Qgtb (occupancy_included L / 100) 0 = true).
    { apply Qgtb_true. apply Qlt_shift_div_l; [reflexivity | lra]. }
    rewrite Hgt. cells. rewrite Hzero. unfold Qdiv. ring.
Qed.

Lemma scenario_full_reduction_witness :
  exists D',
    scenario sample_globals (with_covid sample_levers 100) sample_master = Some D'
    /\ loc D' pkt_2030_scenario diesel_bus == 0
    /\ loc D' vkt_2030_scenario passenger_light == 0.
Proof.
  assert (H : exists D',
             scenario sample_globals (with_covid sample_levers 100) sample_master = Some D')
    by (apply scenario_returns; eexists; reflexivity).
  destruct H as (D' & H). exists D'. split; [exact H | ].
  destruct (scenario_full_reduction sample_globals (with_covid sample_levers 100)
              sample_master D' H) as (Hpkt & _ & Hpl).
  - reflexivity.
  - split; [apply Hpkt | apply Hpl; reflexivity].
Defined.

Lemma covid_leaves_transit_witness :
  match scenario sample_globals (with_covid sample_levers 0) sample_master,
        scenario sample_globals (with_covid sample_levers 80) sample_master with
  | Some A, Some B =>
      loc A emissions_2030_scenario diesel_bus = loc B emissions_2030_scenario diesel_bus
  | _, _ => False
  end.
Proof.
  assert (H := covid_leaves_transit sample_globals sample_levers sample_master 0 80).
  assert (HA : exists A, scenario sample_globals (with_covid sample_levers 0)
                           sample_master = Some A)
    by (apply scenario_returns; eexists; reflexivity).
  assert (HB : exists B, scenario sample_globals (with_covid sample_levers 80)
                           sample_master = Some B)
    by (apply scenario_returns; eexists; reflexivity).
  destruct HA as (A & HA), HB as (B & HB). rewrite HA, HB in H |- *.
  apply (H diesel_bus). simpl. tauto.
Defined.

Lemma row_sum_ext (s t : Series) :
  (forall m, s m == t m) -> row_sum s == row_sum t.
Proof.
  intros H. unfold row_sum. cbn [fold_left all_modes]. rewrite !H. reflexivity.
Qed.

Lemma row_sum_plus (s t : Series) :
  row_sum (fun m => s m + t m) == row_sum s + row_sum t.
Proof. unfold row_sum. cbn [fold_left all_modes]. ring. Qed.

Lemma column_sum_total (rows : list EffectRow) :
  Forall (fun row => row_sum (fun m => skipna (row m)) == 0) rows ->
  row_sum (column_sum rows) == 0.
Proof.
  induction 1 as [|row rows Hrow _ IH].
  - unfold row_sum, column_sum. simpl. ring.
  - rewrite (row_sum_ext _ (fun m => skipna (row m) + column_sum rows m)).
    + rewrite row_sum_plus, Hrow, IH. ring.
    + intros m. apply column_sum_cons.
Qed.

Lemma electrification_total (n : numbers.t) (D : DataFrame) (y f : Q) :
  row_sum (car_electric (bus_electric n D y) f pkt_2030_scenario)
  == row_sum (D pkt_2030_scenario).
Proof.
  unfold car_electric, bus_electric.
  destruct (Qgtb f 0), (Qgtb y 2019); cells; ring.
Qed.

Lemma last_stages_total (n : numbers.t) (D : DataFrame) (p o e : Q) (ef : Factors) :
  row_sum (calculate_emissions (car_occupancy (covid_trips D p n) o) ef e pkt_2030_scenario)
  == (1 - p / 100) * row_sum (D pkt_2030_scenario).
Proof.
  unfold car_occupancy. destruct (Qgtb o 0); cells; ring.
Qed.

(** X18.  Take the tables and constants the module computes at start-up,
    projects whose primary modes are transit modes, and private totals (with
    and without cycling) that are not 0.  Then for every lever setting the
    table the pipeline returns has a sum of scenario pkt over all modes equal
    to [1 - covid/100] times that of the master table: projects, bus
    ridership, cycling and both electrifications move passenger distance
    between modes without creating or removing any, and only the trip
    reduction scales it. *)
Theorem scenario_total_pkt (pt_details : Details) (raw : DataFrame) (ef : Factors)
    (L : Levers) (D' : DataFrame) :
  let master := fst (initialisation pt_details raw ef) in
  let g := snd (initialisation pt_details raw ef) in
  (forall l p, In (l, p) pt_details -> In (primary_mode p) pt_modes) ->
  ~ numbers.mode_sum_pkt (the_numbers g) == 0 ->
  ~ numbers.mode_pkt_no_bike (the_numbers g) == 0 ->
  scenario g L master = Some D' ->
  row_sum (D' pkt_2030_scenario)
  == (1 - covid L / 100) * row_sum (master pkt_2030_scenario).
Proof.
  intros master g Htransit Hsum Hnobike Hrun.
  assert (Hknown : forall l, In l (pt_included L) -> In l (map fst pt_details)).
  { apply (scenario_known_labels pt_details raw ef L). exists D'. exact Hrun. }
  apply scenario_stages in Hrun. destruct Hrun as (D1 & D3 & H1 & H3 & HD').
  change (the_numbers g) with (data_initialisation master) in *.
  change (pt_effects_vkt g)
    with (fst (pt_proj_effects (data_initialisation master) master pt_details)) in H1.
  change (pt_effects_pkt g)
    with (snd (pt_proj_effects (data_initialisation master) master pt_details)) in H1.
  set (n := data_initialisation master) in *.
  (* stage 1 *)
  assert (T1 : row_sum (D1 pkt_2030_scenario) == row_sum (master pkt_2030_scenario)).
  { destruct (table_loc_list_rows n master pt_details (pt_included L) Htransit Hknown)
      as ((rv & Hrv) & (rp & Hrp & Hrows)).
    rewrite (row_sum_ext _ (fun m => master pkt_2030_scenario m + column_sum rp m)).
    - rewrite row_sum_plus, column_sum_total; [ring | ].
      eapply Forall_impl; [ | exact Hrows].
      intros row (p & Hp & Hrow). subst row.
      apply project_pkt_effects_cancel_general;
        [apply data_initialisation_sums | exact Hsum | exact Hp].
    - intros m.
      apply (pt_projects_apply_cells master D1 _ _ _ rv rp Hrv Hrp H1 pkt_2030_scenario m). }
  (* the derived constants of the intermediate tables *)
  assert (F1 := pt_projects_apply_fixed _ _ _ _ _ H1).
  assert (N1 : data_initialisation D1 = n).
  { unfold n, data_initialisation. simpl. unfold loc.
    rewrite !(F1 pkt_2030_baseline _ eq_refl). reflexivity. }
  set (D2 := bus_ridership_changes n D1 (bus_prop_increase L)) in *.
  assert (N2 : data_initialisation D2 = n).
  { rewrite <- N1. unfold data_initialisation. simpl. unfold loc, D2.
    rewrite !(bus_ridership_changes_fixed n D1 _ pkt_2030_baseline _ eq_refl).
    reflexivity. }
  (* stage 2 *)
  assert (T2 : row_sum (D2 pkt_2030_scenario) == row_sum (D1 pkt_2030_scenario)).
  { apply bus_ridership_total_general; [ | exact Hsum].
    rewrite <- N1. apply data_initialisation_sums. }
  (* stage 3 *)
  assert (T3 : row_sum (D3 pkt_2030_scenario) == row_sum (D2 pkt_2030_scenario)).
  { assert (H := cycling_total_general n D2 (cycling_included L)).
    rewrite H3 in H. apply H; [ | exact Hnobike].
    rewrite <- N2. apply data_initialisation_sums. }
  subst D'. rewrite last_stages_total, electrification_total, T3, T2, T1. reflexivity.
Qed.

Lemma scenario_total_pkt_witness :
  exists D',
    scenario sample_globals sample_levers sample_master = Some D'
    /\ row_sum (D' pkt_2030_scenario)
       == (1 - 20 / 100) * row_sum (sample_master pkt_2030_scenario).
Proof.
  assert (H : exists D', scenario sample_globals sample_levers sample_master = Some D')
    by (apply scenario_returns; eexists; reflexivity).
  destruct H as (D' & H). exists D'. split; [exact H | ].
  apply (scenario_total_pkt sample_details sample_base sample_factors sample_levers D').
  - intros l p Hin. simpl in Hin.
    destruct Hin as [Hp | [Hp | []]]; inversion Hp; subst; simpl; tauto.
  - vm_compute. discriminate.
  - vm_compute. discriminate.
  - exact H.
Defined.

(** ** The summary figures *)

(** X19.  The estimate of the number of cars reads the sum of the vkt of the
    two light-vehicle modes, so neither electrification stage changes it;
    and when the occupancy control is positive, two runs of the pipeline
    that differ in the car-electrification lever only return tables with
    the same estimate. *)
Theorem cars_unchanged_by_electrification (g : Globals) (L : Levers) (D : DataFrame)
    (f1 f2 y : Q) :
  let n := the_numbers g in
  cars_2030_scenario_num n (car_electric (bus_electric n D y) f1)
  == cars_2030_scenario_num n D
  /\ (0 < occupancy_included L ->
      match scenario g (with_car_electrification L f1) D,
            scenario g (with_car_electrification L f2) D with
      | Some A, Some B => cars_2030_scenario_num n A == cars_2030_scenario_num n B
      | None, None => True
      | _, _ => False
      end).
Proof.
  intros n. split.
  - unfold cars_2030_scenario_num, car_electric, bus_electric.
    destruct (Qgtb f1 0), (Qgtb y 2019); cells; unfold Qdiv; ring.
  - intros Hocc. unfold scenario.
    cbn [with_car_electrification pt_included bus_prop_increase cycling_included
         bus_electrification_included car_electrification_included covid
         car_emission_change occupancy_included].
    destruct (pt_projects_apply D (pt_effects_vkt g) (pt_effects_pkt g) (pt_included L))
      as [D1|]; cbn [bind]; [ | exact I].
    destruct (cycling_changes (the_numbers g)
                (bus_ridership_changes (the_numbers g) D1 (bus_prop_increase L))
                (cycling_included L)) as [D3|]; cbn [bind]; [ | exact I].
    set (X := bus_electric _ _ _). clearbody X.
    assert (Hgt : Qgtb (occupancy_included L / 100) 0 = true).
    { apply Qgtb_true. apply Qlt_shift_div_l; [reflexivity | lra]. }
    unfold cars_2030_scenario_num, car_occupancy, car_electric. rewrite Hgt.
    destruct (Qgtb (f1 / 100) 0), (Qgtb (f2 / 100) 0); cells; unfold Qdiv; ring.
Qed.

Lemma cars_unchanged_by_electrification_witness :
  match scenario sample_globals (with_car_electrification sample_levers 0) sample_master,
        scenario sample_globals (with_car_electrification sample_levers 90) sample_master with
  | Some A, Some B =>
      cars_2030_scenario_num (the_numbers sample_globals) A
      == cars_2030_scenario_num (the_numbers sample_globals) B
  | _, _ => False
  end.
Proof.
  destruct (cars_unchanged_by_electrification sample_globals sample_levers sample_master
              0 90 0) as (_ & H).
  specialize (H (eq_refl : 0 < occupancy_included sample_levers)).
  assert (HA : exists A, scenario sample_globals (with_car_electrification sample_levers 0)
                           sample_master = Some A)
    by (apply scenario_returns; eexists; reflexivity).
  assert (HB : exists B, scenario sample_globals (with_car_electrification sample_levers 90)
                           sample_master = Some B)
    by (apply scenario_returns; eexists; reflexivity).
  destruct HA as (A & HA), HB as (B & HB). rewrite HA, HB in H |- *. exact H.
Defined.

(** X20.  The colour of the emissions figure is the colour of electric_light
    exactly when the scenario total exceeds the baseline total.  In each of
    the two cascades the last two branches bind a tuple of one string: the
    emissions colour is such a tuple exactly when the scenario total exceeds
    neither the baseline total nor the 2018 total, and the car colour
    exactly when the scenario estimate exceeds neither the baseline estimate
    nor 1432825. *)
Theorem colour_cascades (n : numbers.t) (D : DataFrame) :
  (emissions_colour D = plain (colors electric_light)
   <-> emissions_num D emissions_2030_baseline < emissions_num D emissions_2030_scenario)
  /\ ((exists s, emissions_colour D = one_tuple s)
      <-> emissions_num D emissions_2030_scenario <= emissions_num D emissions_2030_baseline
          /\ emissions_num D emissions_2030_scenario <= emissions_num D emissions_2018)
  /\ ((exists s, car_colour n D = one_tuple s)
      <-> cars_2030_scenario_num n D <= cars_2030_baseline_num n D
          /\ cars_2030_scenario_num n D <= 1432825).
Proof.
  unfold emissions_colour, car_colour. cbv zeta.
  split; [ | split].
  - destruct (Qgtb (emissions_num D emissions_2030_scenario)
                   (emissions_num D emissions_2030_baseline)) eqn:E1.
    + apply Qgtb_true in E1. tauto.
    + apply Qgtb_false in E1.
      split.
      * intros H. exfalso.
        destruct (Qgtb (emissions_num D emissions_2030_scenario)
                       (emissions_num D emissions_2018));
          [ | destruct (Qgtb (emissions_num D emissions_2030_scenario)
                             (emissions_num D emissions_2018 / 2))];
          discriminate H.
      * intros H. exfalso. lra.
  - destruct (Qgtb (emissions_num D emissions_2030_scenario)
                   (emissions_num D emissions_2030_baseline)) eqn:E1;
      [apply Qgtb_true in E1 | apply Qgtb_false in E1].
    + split; [intros (s & Hs); discriminate Hs | intros (H & _); exfalso; lra].
    + destruct (Qgtb (emissions_num D emissions_2030_scenario)
                     (emissions_num D emissions_2018)) eqn:E2;
        [apply Qgtb_true in E2 | apply Qgtb_false in E2].
      * split; [intros (s & Hs); discriminate Hs | intros (_ & H); exfalso; lra].
      * split; [intros _; split; assumption | intros _].
        destruct (Qgtb (emissions_num D emissions_2030_scenario)
                       (emissions_num D emissions_2018 / 2)); eexists; reflexivity.
  - destruct (Qgtb (cars_2030_scenario_num n D) (cars_2030_baseline_num n D)) eqn:C1;
      [apply Qgtb_true in C1 | apply Qgtb_false in C1].
    + split; [intros (s & Hs); discriminate Hs | intros (H & _); exfalso; lra].
    + destruct (Qgtb (cars_2030_scenario_num n D) 1432825) eqn:C2;
        [apply Qgtb_true in C2 | apply Qgtb_false in C2].
      * split; [intros (s & Hs); discriminate Hs | intros (_ & H); exfalso; lra].
      * split; [intros _; split; assumption | intros _].
        destruct (Qgtb (cars_2030_scenario_num n D) 1089207); eexists; reflexivity.
Qed.

(** ** Start-up *)

(** X21.  [data_load] writes the three emissions rows and nothing else, and
    loading a loaded table again changes nothing.  The scenario emissions it
    writes are those the emissions stage computes with no improvement of the
    car emission standard: on a freshly loaded table that stage changes no
    cell. *)
Theorem data_load_emissions (raw : DataFrame) (ef : Factors) :
  (forall r m,
     ~ In r [emissions_2018; emissions_2030_baseline; emissions_2030_scenario] ->
     data_load raw ef r m = raw r m)
  /\ (forall r m, data_load (data_load raw ef) ef r m = data_load raw ef r m)
  /\ forall r m, calculate_emissions (data_load raw ef) ef 0 r m == data_load raw ef r m.
Proof.
  split; [ | split].
  - intros r m Hr. destruct r; try reflexivity; exfalso; apply Hr; simpl; tauto.
  - intros r m. destruct r; reflexivity.
  - intros r m. destruct r, m; cells; ring.
Qed.

Lemma data_load_emissions_witness :
  data_load sample_base sample_factors vkt_2030_baseline walking = 90.
Proof.
  destruct (data_load_emissions sample_base sample_factors) as (H & _).
  rewrite H; [reflexivity | ].
  simpl. intros [Hr | [Hr | [Hr | []]]]; discriminate Hr.
Defined.

(** X22.  The two effect tables carry the labels of [pt_details], in its
    order, so a label is found in one exactly when it is found in the other:
    with the tables computed at start-up, [pt_projects_apply] either finds
    every selected row in both tables or raises before it has written
    anything. *)
Theorem pt_proj_effects_index (n : numbers.t) (base : DataFrame) (pt_details : Details) :
  map fst (fst (pt_proj_effects n base pt_details)) = map fst pt_details
  /\ map fst (snd (pt_proj_effects n base pt_details)) = map fst pt_details
  /\ (forall l,
        table_loc (fst (pt_proj_effects n base pt_details)) l = None
        <-> table_loc (snd (pt_proj_effects n base pt_details)) l = None)
  /\ forall D included,
       pt_projects_apply D (fst (pt_proj_effects n base pt_details))
         (snd (pt_proj_effects n base pt_details)) included = None ->
       table_loc_list (fst (pt_proj_effects n base pt_details)) included = None.
Proof.
  assert (Hsame : forall l,
            table_loc (fst (pt_proj_effects n base pt_details)) l = None
            <-> table_loc (snd (pt_proj_effects n base pt_details)) l = None).
  { intros l. unfold pt_proj_effects. cbn [fst snd].
    induction pt_details as [|[l0 p0] rest IH]; simpl; [tauto | ].
    destruct (String.eqb l0 l); [split; discriminate | exact IH]. }
  split; [ | split; [ | split; [exact Hsame | ]]].
  - unfold pt_proj_effects. cbn [fst]. rewrite map_map.
    apply map_ext. intros [l p]. reflexivity.
  - unfold pt_proj_effects. cbn [snd]. rewrite map_map.
    apply map_ext. intros [l p]. reflexivity.
  - intros D included Hnone.
    apply pt_projects_apply_none in Hnone. destruct Hnone as (_ & l & Hl & Hmiss).
    apply table_loc_list_none. exists l. split; [exact Hl | ].
    destruct Hmiss as [Hv | Hp]; [exact Hv | apply Hsame, Hp].
Qed.

Lemma pt_proj_effects_index_witness :
  table_loc_list (fst (pt_proj_effects sample_numbers sample_base sample_details))
    ["AMETI"; "Tunnel"] = None.
Proof.
  destruct (pt_proj_effects_index sample_numbers sample_base sample_details)
    as (_ & _ & _ & H).
  apply (H sample_base). reflexivity.
Defined.
